(** * tesla-http-proxy: bootstrap of the HTTP proxy (cmd/tesla-http-proxy/main.go)

    A shallow embedding of [readFromEnvironment] and [main], with the
    process environment as a finite map, the calls into other packages as
    oracles of the run, and the observable calls recorded in a trace. *)

From Stdlib Require Import ZArith String List Bool Lia DecimalString.
From stdpp Require Import base gmap strings list.

Local Open Scope string_scope.
Local Open Scope list_scope.
Local Open Scope Z_scope.

(** ** Constants of main.go *)

Definition cacheSize : Z := 10000.
Definition defaultPort : Z := 8080.
Definition defaultPortHTTPS : Z := 8443.

Definition EnvTLSCert : string := "TESLA_HTTP_PROXY_TLS_CERT".
Definition EnvTLSKey : string := "TESLA_HTTP_PROXY_TLS_KEY".
Definition EnvHost : string := "TESLA_HTTP_PROXY_HOST".
Definition EnvPort : string := "TESLA_HTTP_PROXY_PORT".
Definition EnvTimeout : string := "TESLA_HTTP_PROXY_TIMEOUT".
Definition EnvVerbose : string := "TESLA_VERBOSE".
Definition EnvDisableTLS : string := "TESLA_HTTP_PROXY_DISABLE_TLS".

(** ** The process environment *)

Abbreviation Env := (gmap string string).

(** [os.LookupEnv]: the value and whether the variable is present. *)
Definition LookupEnv (env : Env) (key : string) : option string := env !! key.

(** [os.Getenv]: the value, or the empty string when the variable is absent. *)
Definition Getenv (env : Env) (key : string) : string :=
  match env !! key with
  | Some v => v
  | None => ""
  end.

(** ** The configuration record *)

Record HTTProxyConfig := mkConfig {
  keyFilename : string;
  certFilename : string;
  verbose : bool;
  host : string;
  port : Z;
  timeout : Z
}.

(** The values the flags are registered with in [init]. *)
Definition flagDefaults (DefaultTimeout : Z) : HTTProxyConfig :=
  {| keyFilename := ""; certFilename := ""; verbose := false;
     host := "localhost"; port := defaultPort; timeout := DefaultTimeout |}.

Definition set_keyFilename (v : string) (c : HTTProxyConfig) : HTTProxyConfig :=
  {| keyFilename := v; certFilename := certFilename c; verbose := verbose c;
     host := host c; port := port c; timeout := timeout c |}.
Definition set_certFilename (v : string) (c : HTTProxyConfig) : HTTProxyConfig :=
  {| keyFilename := keyFilename c; certFilename := v; verbose := verbose c;
     host := host c; port := port c; timeout := timeout c |}.
Definition set_verbose (v : bool) (c : HTTProxyConfig) : HTTProxyConfig :=
  {| keyFilename := keyFilename c; certFilename := certFilename c; verbose := v;
     host := host c; port := port c; timeout := timeout c |}.
Definition set_host (v : string) (c : HTTProxyConfig) : HTTProxyConfig :=
  {| keyFilename := keyFilename c; certFilename := certFilename c; verbose := verbose c;
     host := v; port := port c; timeout := timeout c |}.
Definition set_port (v : Z) (c : HTTProxyConfig) : HTTProxyConfig :=
  {| keyFilename := keyFilename c; certFilename := certFilename c; verbose := verbose c;
     host := host c; port := v; timeout := timeout c |}.
Definition set_timeout (v : Z) (c : HTTProxyConfig) : HTTProxyConfig :=
  {| keyFilename := keyFilename c; certFilename := certFilename c; verbose := verbose c;
     host := host c; port := port c; timeout := v |}.

(** ** Errors, keys and the proxy handler *)

(** A Go [error], by its message. *)
Abbreviation error := string.

Inductive Result (A : Type) : Type :=
| Ok (a : A)
| Err (e : error).
Arguments Ok {A} a.
Arguments Err {A} e.

(** [protocol.ECDHPrivateKey]: only [PublicBytes()] is used here. *)
Record ECDHPrivateKey := { PublicBytes : list Byte.byte }.

(** The [*ecdh.PublicKey] returned by [protocol.LoadPublicKey]. *)
Record PublicKey := { Bytes : list Byte.byte }.

(** [bytes.Equal]. *)
Fixpoint bytes_Equal (a b : list Byte.byte) : bool :=
  match a, b with
  | [], [] => true
  | x :: a', y :: b' => Byte.eqb x y && bytes_Equal a' b'
  | _, _ => false
  end.

(** The [*proxy.Proxy] returned by [proxy.New]; [Timeout] is the one field
    main.go writes. *)
Record Proxy := { sessions : nat; Timeout : Z }.

Definition set_Timeout (v : Z) (p : Proxy) : Proxy :=
  {| sessions := sessions p; Timeout := v |}.

(** ** What main.go imports and what a run observes *)

(** [proxy.DefaultTimeout], [strconv.Atoi] and [time.ParseDuration]; the two
    parsers return their value together with their error, as in Go. *)
Class Imports := {
  DefaultTimeout : Z;
  Atoi : string -> Z * option error;
  ParseDuration : string -> Z * option error
}.

(** Outcome of [flag.Parse] on the command line: the record the flags leave
    behind, or the exit of the process inside the flag package. *)
Inductive FlagParse :=
| Parsed (c : HTTProxyConfig)
| FlagExit (code : Z).

(** The results of the calls a run of [main] makes into other packages. *)
Record World := {
  w_env : Env;
  w_NewConfig : option error;
  w_flags : FlagParse;
  w_PrivateKey : Result ECDHPrivateKey;
  w_LoadPublicKey : string -> Result PublicKey;
  w_proxyNew : ECDHPrivateKey -> Z -> Result Proxy;
  w_ListenAndServeTLS : string -> string -> string -> Proxy -> option error;
  w_ListenAndServe : string -> Proxy -> option error
}.

(** The calls with an effect outside the process, in program order.
    [FlagUsage] stands for what the flag package prints, through [Usage],
    before it exits. *)
Inductive Event :=
| Stderr (text : string)
| FlagUsage
| SetLevelDebug
| LogDebug (msg : string)
| LogInfo (msg : string)
| LogError (msg : string)
| ProxyNew (skey : ECDHPrivateKey) (size : Z)
| ListenAndServeTLS (addr certFile keyFile : string) (handler : Proxy)
| ListenAndServe (addr : string) (handler : Proxy).

(** How the body of [main] stops: a [return] with the current value of its
    variable [err], a call of [os.Exit], or a listener that never returns. *)
Inductive Stop :=
| Return (err : option error)
| OsExit (code : Z)
| Blocked.

(** How the process ends. *)
Inductive Outcome :=
| Exited (code : Z)
| Serving.

Definition nl : string := String (Ascii.ascii_of_nat 10) EmptyString.

Definition nonLocalhostWarning : string :=
  nl +:+ "Do not listen on a network interface without adding client authentication. Unauthorized clients may"
  +:+ nl +:+ "be used to create excessive traffic from your IP address to Tesla's servers, which Tesla may respond"
  +:+ nl +:+ "to by rate limiting or blocking your connections.".

(** [%d] of [fmt.Sprintf]. *)
Definition fmt_d (n : Z) : string := NilZero.string_of_int (Z.to_int n).

Section Bootstrap.
Context `{Imports}.

(** [readFromEnvironment]: the record it leaves in [httpConfig] and the
    error it returns. *)
Definition readFromEnvironment (env : Env) (httpConfig : HTTProxyConfig)
  : HTTProxyConfig * option error :=
  let httpConfig :=
    if String.eqb (certFilename httpConfig) ""
    then set_certFilename (Getenv env EnvTLSCert) httpConfig
    else httpConfig in
  let httpConfig :=
    if String.eqb (keyFilename httpConfig) ""
    then set_keyFilename (Getenv env EnvTLSKey) httpConfig
    else httpConfig in
  let httpConfig :=
    if String.eqb (host httpConfig) "localhost"
    then match LookupEnv env EnvHost with
         | Some host => set_host host httpConfig
         | None => httpConfig
         end
    else httpConfig in
  let httpConfig :=
    if negb (verbose httpConfig)
    then match LookupEnv env EnvVerbose with
         | Some verbose =>
             set_verbose (negb (String.eqb verbose "false") && negb (String.eqb verbose "0"))
                         httpConfig
         | None => httpConfig
         end
    else httpConfig in
  let '(httpConfig, err) :=
    if port httpConfig =? defaultPort
    then match LookupEnv env EnvPort with
         | Some port =>
             let '(n, err) := Atoi port in
             (set_port n httpConfig,
              match err with
              | Some _ => Some ("invalid port: " +:+ port)
              | None => None
              end)
         | None => (httpConfig, None)
         end
    else (httpConfig, None) in
  match err with
  | Some e => (httpConfig, Some e)
  | None =>
      if timeout httpConfig =? DefaultTimeout
      then match LookupEnv env EnvTimeout with
           | Some timeoutEnv =>
               let '(d, err) := ParseDuration timeoutEnv in
               (set_timeout d httpConfig,
                match err with
                | Some _ => Some ("invalid timeout: " +:+ timeoutEnv)
                | None => None
                end)
           | None => (httpConfig, None)
           end
      else (httpConfig, None)
  end.

(** Lines 124-128 of [main]: TLS stays on unless the variable is ["true"]. *)
Definition useTLS (env : Env) : bool :=
  match LookupEnv env EnvDisableTLS with
  | Some disableTLS => negb (String.eqb disableTLS "true")
  | None => true
  end.

(** Lines 131-144 of [main]: the check of the TLS key against the
    command-authentication key. The boolean tells whether [main] returns. *)
Definition checkTLSKey (w : World) (httpConfig : HTTProxyConfig)
           (skey : ECDHPrivateKey) : list Event * bool :=
  match w_LoadPublicKey w (keyFilename httpConfig) with
  | Ok tlsPublicKey =>
      if bytes_Equal (Bytes tlsPublicKey) (PublicBytes skey)
      then ([Stderr ("It is unsafe to use the same private key for TLS and command authentication." +:+ nl);
             Stderr ("" +:+ nl);
             Stderr ("Generate a new TLS key for this server." +:+ nl)], true)
      else ([LogDebug "Verified that TLS key is not the same as the command-authentication key."], false)
  | Err _ =>
      ([LogDebug "Verified that TLS key is not a recycled command-authentication key, because it is not NIST P256."], false)
  end.

(** Lines 146-160 of [main]: proxy creation and the listener. *)
Definition serve (w : World) (httpConfig : HTTProxyConfig)
           (skey : ECDHPrivateKey) (useTLS : bool) : list Event * Stop :=
  match w_proxyNew w skey cacheSize with
  | Err e =>
      let err := Some e in
      ([LogDebug "Creating proxy"; ProxyNew skey cacheSize;
        LogError ("Error initializing proxy service: " +:+ e)], Return err)
  | Ok p =>
      let err : option error := None in
      let p := set_Timeout (timeout httpConfig) p in
      let addr := host httpConfig +:+ ":" +:+ fmt_d (port httpConfig) in
      let started := [LogDebug "Creating proxy"; ProxyNew skey cacheSize;
                      LogInfo ("Listening on " +:+ addr)] in
      if useTLS && negb (String.eqb (certFilename httpConfig) "")
                && negb (String.eqb (keyFilename httpConfig) "")
      then match w_ListenAndServeTLS w addr (certFilename httpConfig) (keyFilename httpConfig) p with
           | Some e =>
               (started ++ [ListenAndServeTLS addr (certFilename httpConfig) (keyFilename httpConfig) p;
                            LogError ("Server stopped: " +:+ e)], Return err)
           | None =>
               (started ++ [ListenAndServeTLS addr (certFilename httpConfig) (keyFilename httpConfig) p],
                Blocked)
           end
      else match w_ListenAndServe w addr p with
           | Some e =>
               (started ++ [ListenAndServe addr p; LogError ("Server stopped: " +:+ e)], Return err)
           | None => (started ++ [ListenAndServe addr p], Blocked)
           end
  end.

(** The body of [main] up to the point where it stops. The [err] bound
    here is the variable of [main] that the deferred function reads; the
    [err] of the [if] statement on line 132 is another variable. *)
Definition main_body (w : World) : list Event * Stop :=
  match w_NewConfig w with
  | Some e =>
      ([Stderr ("Failed to load credential configuration: " +:+ e +:+ nl)], OsExit 1)
  | None =>
      match w_flags w with
      | FlagExit code => ([FlagUsage], OsExit code)
      | Parsed flags =>
          let '(httpConfig, err) := readFromEnvironment (w_env w) flags in
          match err with
          | Some e => ([Stderr ("Error reading environment: " +:+ e +:+ nl)], OsExit 1)
          | None =>
              let level := if verbose httpConfig then [SetLevelDebug] else [] in
              let warning :=
                if negb (String.eqb (host httpConfig) "localhost")
                then [Stderr (nonLocalhostWarning +:+ nl)] else [] in
              match w_PrivateKey w with
              | Err e => let err := Some e in (level ++ warning, Return err)
              | Ok skey =>
                  let err : option error := None in
                  let useTLS := useTLS (w_env w) in
                  let '(checked, reused) :=
                    if useTLS then checkTLSKey w httpConfig skey else ([], false) in
                  if reused
                  then (level ++ warning ++ checked, Return err)
                  else let '(served, stop) := serve w httpConfig skey useTLS in
                       (level ++ warning ++ checked ++ served, stop)
              end
          end
      end
  end.

(** [main] with its deferred function: a [return] with a non-nil [err]
    prints it and exits with status 1; [os.Exit] skips deferred calls. *)
Definition main (w : World) : list Event * Outcome :=
  let '(trace, stop) := main_body w in
  match stop with
  | Return (Some e) => (trace ++ [Stderr ("Error: " +:+ e +:+ nl)], Exited 1)
  | Return None => (trace, Exited 0)
  | OsExit code => (trace, Exited code)
  | Blocked => (trace, Serving)
  end.

End Bootstrap.

(** ** The resolved record, one field at a time

    What [readFromEnvironment] leaves in each field, and the error of its
    port and timeout steps; [readFromEnvironment_fields] below relates them
    to the function. *)

Section Fields.
Context `{Imports}.

Definition resolved_path (current : string) (env : Env) (key : string) : string :=
  if String.eqb current "" then Getenv env key else current.

Definition resolved_host (env : Env) (c : HTTProxyConfig) : string :=
  if String.eqb (host c) "localhost"
  then match LookupEnv env EnvHost with Some v => v | None => host c end
  else host c.

Definition resolved_verbose (env : Env) (c : HTTProxyConfig) : bool :=
  if verbose c then true
  else match LookupEnv env EnvVerbose with
       | Some v => negb (String.eqb v "false") && negb (String.eqb v "0")
       | None => false
       end.

Definition resolved_port (env : Env) (c : HTTProxyConfig) : Z :=
  if port c =? defaultPort
  then match LookupEnv env EnvPort with Some v => fst (Atoi v) | None => port c end
  else port c.

Definition port_error (env : Env) (c : HTTProxyConfig) : option error :=
  if port c =? defaultPort
  then match LookupEnv env EnvPort with
       | Some v => match snd (Atoi v) with
                   | Some _ => Some ("invalid port: " +:+ v)
                   | None => None
                   end
       | None => None
       end
  else None.

Definition resolved_timeout (env : Env) (c : HTTProxyConfig) : Z :=
  match port_error env c with
  | Some _ => timeout c
  | None =>
      if timeout c =? DefaultTimeout
      then match LookupEnv env EnvTimeout with Some v => fst (ParseDuration v) | None => timeout c end
      else timeout c
  end.

Definition timeout_error (env : Env) (c : HTTProxyConfig) : option error :=
  if timeout c =? DefaultTimeout
  then match LookupEnv env EnvTimeout with
       | Some v => match snd (ParseDuration v) with
                   | Some _ => Some ("invalid timeout: " +:+ v)
                   | None => None
                   end
       | None => None
       end
  else None.

End Fields.

(** The events that start a listener, and the ones that build the handler. *)
Definition creates_listener (e : Event) : bool :=
  match e with
  | ListenAndServeTLS _ _ _ _ | ListenAndServe _ _ => true
  | _ => false
  end.

Definition constructs_proxy (e : Event) : bool :=
  match e with
  | ProxyNew _ _ => true
  | _ => false
  end.

Definition is_ListenAndServeTLS (e : Event) : bool :=
  match e with
  | ListenAndServeTLS _ _ _ _ => true
  | _ => false
  end.

Definition is_exposure_warning (e : Event) : bool :=
  match e with
  | Stderr text => String.eqb text (nonLocalhostWarning +:+ nl)
  | _ => false
  end.

(** A run with the result of [protocol.LoadPublicKey] replaced. *)
Definition with_LoadPublicKey (f : string -> Result PublicKey) (w : World) : World :=
  {| w_env := w_env w; w_NewConfig := w_NewConfig w; w_flags := w_flags w;
     w_PrivateKey := w_PrivateKey w; w_LoadPublicKey := f;
     w_proxyNew := w_proxyNew w; w_ListenAndServeTLS := w_ListenAndServeTLS w;
     w_ListenAndServe := w_ListenAndServe w |}.

(** A run with the outcome of [flag.Parse] replaced. *)
Definition with_flags (f : FlagParse) (w : World) : World :=
  {| w_env := w_env w; w_NewConfig := w_NewConfig w; w_flags := f;
     w_PrivateKey := w_PrivateKey w; w_LoadPublicKey := w_LoadPublicKey w;
     w_proxyNew := w_proxyNew w; w_ListenAndServeTLS := w_ListenAndServeTLS w;
     w_ListenAndServe := w_ListenAndServe w |}.

Definition is_SetLevelDebug (e : Event) : bool :=
  match e with
  | SetLevelDebug => true
  | _ => false
  end.

(** ** The runs of [main], case by case

    The eight ways through [main], each with the results that lead to it,
    the trace it leaves and how the process ends; [main_run] below shows that
    every run is one of them. *)

(** Lines 110-116: the log level and the exposure warning. *)
Definition preamble (cfg : HTTProxyConfig) : list Event :=
  (if verbose cfg then [SetLevelDebug] else []) ++
  (if negb (String.eqb (host cfg) "localhost")
   then [Stderr (nonLocalhostWarning +:+ nl)] else []).

(** Lines 131-144, which run only with TLS enabled. *)
Definition keyCheck (w : World) (cfg : HTTProxyConfig) (skey : ECDHPrivateKey)
  : list Event * bool :=
  if useTLS (w_env w) then checkTLSKey w cfg skey else ([], false).

(** The address of line 153. *)
Definition listenAddr (cfg : HTTProxyConfig) : string :=
  host cfg +:+ ":" +:+ fmt_d (port cfg).

(** The listener call of lines 156-160. *)
Definition chosen_listener (cfg : HTTProxyConfig) (tls : bool) (p : Proxy) : Event :=
  if tls && negb (String.eqb (certFilename cfg) "")
         && negb (String.eqb (keyFilename cfg) "")
  then ListenAndServeTLS (listenAddr cfg) (certFilename cfg) (keyFilename cfg)
                         (set_Timeout (timeout cfg) p)
  else ListenAndServe (listenAddr cfg) (set_Timeout (timeout cfg) p).

(** What the call recorded by a listener event returned in this run. *)
Definition listener_result (w : World) (e : Event) : option error :=
  match e with
  | ListenAndServeTLS addr certFile keyFile handler =>
      w_ListenAndServeTLS w addr certFile keyFile handler
  | ListenAndServe addr handler => w_ListenAndServe w addr handler
  | _ => None
  end.

Section Runs.
Context `{Imports}.

Inductive Run (w : World) : list Event * Outcome -> Prop :=
| Run_NewConfig (e : error) :
    w_NewConfig w = Some e ->
    Run w ([Stderr ("Failed to load credential configuration: " +:+ e +:+ nl)], Exited 1)
| Run_FlagExit (code : Z) :
    w_NewConfig w = None -> w_flags w = FlagExit code ->
    Run w ([FlagUsage], Exited code)
| Run_Environment (flags cfg : HTTProxyConfig) (e : error) :
    w_NewConfig w = None -> w_flags w = Parsed flags ->
    readFromEnvironment (w_env w) flags = (cfg, Some e) ->
    Run w ([Stderr ("Error reading environment: " +:+ e +:+ nl)], Exited 1)
| Run_PrivateKey (flags cfg : HTTProxyConfig) (e : error) :
    w_NewConfig w = None -> w_flags w = Parsed flags ->
    readFromEnvironment (w_env w) flags = (cfg, None) ->
    w_PrivateKey w = Err e ->
    Run w (preamble cfg ++ [Stderr ("Error: " +:+ e +:+ nl)], Exited 1)
| Run_Reuse (flags cfg : HTTProxyConfig) (skey : ECDHPrivateKey) (checked : list Event) :
    w_NewConfig w = None -> w_flags w = Parsed flags ->
    readFromEnvironment (w_env w) flags = (cfg, None) ->
    w_PrivateKey w = Ok skey ->
    keyCheck w cfg skey = (checked, true) ->
    Run w (preamble cfg ++ checked, Exited 0)
| Run_ProxyNew (flags cfg : HTTProxyConfig) (skey : ECDHPrivateKey)
               (checked : list Event) (e : error) :
    w_NewConfig w = None -> w_flags w = Parsed flags ->
    readFromEnvironment (w_env w) flags = (cfg, None) ->
    w_PrivateKey w = Ok skey ->
    keyCheck w cfg skey = (checked, false) ->
    w_proxyNew w skey cacheSize = Err e ->
    Run w (preamble cfg ++ checked ++
           [LogDebug "Creating proxy"; ProxyNew skey cacheSize;
            LogError ("Error initializing proxy service: " +:+ e);
            Stderr ("Error: " +:+ e +:+ nl)], Exited 1)
| Run_Stopped (flags cfg : HTTProxyConfig) (skey : ECDHPrivateKey)
              (checked : list Event) (p : Proxy) (e : error) :
    w_NewConfig w = None -> w_flags w = Parsed flags ->
    readFromEnvironment (w_env w) flags = (cfg, None) ->
    w_PrivateKey w = Ok skey ->
    keyCheck w cfg skey = (checked, false) ->
    w_proxyNew w skey cacheSize = Ok p ->
    listener_result w (chosen_listener cfg (useTLS (w_env w)) p) = Some e ->
    Run w (preamble cfg ++ checked ++
           [LogDebug "Creating proxy"; ProxyNew skey cacheSize;
            LogInfo ("Listening on " +:+ listenAddr cfg);
            chosen_listener cfg (useTLS (w_env w)) p;
            LogError ("Server stopped: " +:+ e)], Exited 0)
| Run_Serving (flags cfg : HTTProxyConfig) (skey : ECDHPrivateKey)
              (checked : list Event) (p : Proxy) :
    w_NewConfig w = None -> w_flags w = Parsed flags ->
    readFromEnvironment (w_env w) flags = (cfg, None) ->
    w_PrivateKey w = Ok skey ->
    keyCheck w cfg skey = (checked, false) ->
    w_proxyNew w skey cacheSize = Ok p ->
    listener_result w (chosen_listener cfg (useTLS (w_env w)) p) = None ->
    Run w (preamble cfg ++ checked ++
           [LogDebug "Creating proxy"; ProxyNew skey cacheSize;
            LogInfo ("Listening on " +:+ listenAddr cfg);
            chosen_listener cfg (useTLS (w_env w)) p], Serving).

End Runs.

(** Following the words of the spec, not main.go: the hosts that are the
    loopback address, by name or as the IPv4 or IPv6 address literal. The
    test of main.go, line 114, is the comparison with "localhost" alone. *)
Definition spec_loopback (h : string) : bool :=
  String.eqb h "localhost" || String.eqb h "127.0.0.1" || String.eqb h "::1".

(** ** Sample runs

    Concrete imports and worlds on which the statements below are
    evaluated. *)

Module Sample.

Definition dq : string := String (Ascii.ascii_of_nat 34) EmptyString.

Definition is_digit (a : Ascii.ascii) : bool :=
  let n := Z.of_N (Ascii.N_of_ascii a) in (48 <=? n) && (n <=? 57).

Fixpoint digits_value (s : string) (acc : Z) : option Z :=
  match s with
  | EmptyString => Some acc
  | String a s' =>
      if is_digit a
      then digits_value s' (10 * acc + (Z.of_N (Ascii.N_of_ascii a) - 48))
      else None
  end.

(** [strconv.Atoi] where [int] has 64 bits: an optional sign and decimal
    digits, clamped with a range error outside [int64]. *)
Definition Atoi64 (s : string) : Z * option error :=
  let syntax := (0, Some ("strconv.Atoi: parsing " +:+ dq +:+ s +:+ dq +:+ ": invalid syntax")) in
  let range (v : Z) :=
    (v, Some ("strconv.Atoi: parsing " +:+ dq +:+ s +:+ dq +:+ ": value out of range")) in
  match s with
  | EmptyString => syntax
  | String c rest =>
      let neg := Ascii.eqb c (Ascii.ascii_of_nat 45) in
      let body := if neg || Ascii.eqb c (Ascii.ascii_of_nat 43) then rest else s in
      match body with
      | EmptyString => syntax
      | _ =>
          match digits_value body 0 with
          | None => syntax
          | Some un =>
              if neg
              then if 2 ^ 63 <? un then range (- 2 ^ 63) else (- un, None)
              else if 2 ^ 63 <=? un then range (2 ^ 63 - 1) else (un, None)
          end
      end
  end.

(** A stand-in for [time.ParseDuration] that knows the durations used
    below, in nanoseconds, and rejects every other string. *)
Definition ParseDurationTable (s : string) : Z * option error :=
  if String.eqb s "30s" then (30000000000, None)
  else if String.eqb s "10s" then (10000000000, None)
  else if String.eqb s "1m" then (60000000000, None)
  else (0, Some ("time: invalid duration " +:+ dq +:+ s +:+ dq)).

#[local] Instance imports : Imports :=
  {| DefaultTimeout := 10000000000; Atoi := Atoi64; ParseDuration := ParseDurationTable |}.

Definition defaults : HTTProxyConfig := flagDefaults DefaultTimeout.

Definition commandKey : ECDHPrivateKey :=
  {| PublicBytes := [Byte.x04; Byte.x1f; Byte.xa2; Byte.x07] |}.
Definition sameKey : PublicKey :=
  {| Bytes := [Byte.x04; Byte.x1f; Byte.xa2; Byte.x07] |}.
Definition otherKey : PublicKey :=
  {| Bytes := [Byte.x04; Byte.x5c; Byte.x33; Byte.x90] |}.

Definition newProxy : Proxy := {| sessions := 0; Timeout := DefaultTimeout |}.

(** A run in which every call into another package succeeds, the TLS key
    file cannot be read as a public key and the listener never returns. *)
Definition world (env : Env) (flags : HTTProxyConfig) : World :=
  {| w_env := env;
     w_NewConfig := None;
     w_flags := Parsed flags;
     w_PrivateKey := Ok commandKey;
     w_LoadPublicKey := fun _ => Err "open : no such file or directory";
     w_proxyNew := fun _ _ => Ok newProxy;
     w_ListenAndServeTLS := fun _ _ _ _ => None;
     w_ListenAndServe := fun _ _ => None |}.

Definition tlsEnv : Env :=
  <[EnvTLSCert := "server.crt"]> (<[EnvTLSKey := "server.key"]> ∅).

(** What [readFromEnvironment] makes of the default flags in [tlsEnv]. *)
Definition tlsConfig : HTTProxyConfig :=
  set_certFilename "server.crt" (set_keyFilename "server.key" defaults).

(** Scenario D: certificate and key supplied, and the key file holds the
    public key of the command-authentication key. *)
Definition reuseWorld : World :=
  with_LoadPublicKey (fun _ => Ok sameKey) (world tlsEnv defaults).

Definition distinctWorld : World :=
  with_LoadPublicKey (fun _ => Ok otherKey) (world tlsEnv defaults).

(** An environment that sets every variable of the record but the
    certificate, read after a command line that gave [-tls-key]. *)
Definition fullEnv : Env :=
  <[EnvHost := "0.0.0.0"]> (<[EnvPort := "9090"]> (<[EnvTLSKey := "env.key"]>
    (<[EnvTimeout := "30s"]> (<[EnvVerbose := "1"]> ∅)))).
Definition keyFlag : HTTProxyConfig := set_keyFilename "flag.key" defaults.
Definition fullConfig : HTTProxyConfig :=
  {| keyFilename := "flag.key"; certFilename := ""; verbose := true;
     host := "0.0.0.0"; port := 9090; timeout := 30000000000 |}.

(** An environment that sets none of the six variables of the record. *)
Definition otherEnv : Env :=
  <["PATH" := "/usr/bin"]> (<[EnvDisableTLS := "true"]> ∅).

(** A rejected port beside a host and a valid timeout. *)
Definition badPortEnv : Env :=
  <[EnvHost := "0.0.0.0"]> (<[EnvPort := "abc"]> (<[EnvTimeout := "30s"]> ∅)).

(** TLS disabled with certificate and key supplied. *)
Definition noTLSEnv : Env := <[EnvDisableTLS := "true"]> tlsEnv.

(** Runs in which [config.PrivateKey] fails, [proxy.New] fails, and the
    listener returns at once. *)
Definition noKeyWorld : World :=
  {| w_env := <[EnvHost := "0.0.0.0"]> ∅;
     w_NewConfig := None;
     w_flags := Parsed defaults;
     w_PrivateKey := Err "no private key specified";
     w_LoadPublicKey := fun _ => Ok sameKey;
     w_proxyNew := fun _ _ => Ok newProxy;
     w_ListenAndServeTLS := fun _ _ _ _ => None;
     w_ListenAndServe := fun _ _ => None |}.

Definition noProxyWorld : World :=
  {| w_env := ∅;
     w_NewConfig := None;
     w_flags := Parsed defaults;
     w_PrivateKey := Ok commandKey;
     w_LoadPublicKey := fun _ => Err "open : no such file or directory";
     w_proxyNew := fun _ _ => Err "cache size must be positive";
     w_ListenAndServeTLS := fun _ _ _ _ => None;
     w_ListenAndServe := fun _ _ => None |}.

Definition portInUseWorld : World :=
  {| w_env := ∅;
     w_NewConfig := None;
     w_flags := Parsed defaults;
     w_PrivateKey := Ok commandKey;
     w_LoadPublicKey := fun _ => Err "open : no such file or directory";
     w_proxyNew := fun _ _ => Ok newProxy;
     w_ListenAndServeTLS := fun _ _ _ _ => None;
     w_ListenAndServe := fun _ _ => Some "listen tcp 127.0.0.1:8080: bind: address already in use" |}.

End Sample.

(** ** The environment resolver *)

Lemma bytes_Equal_eq (a b : list Byte.byte) : bytes_Equal a b = true <-> a = b.
Proof.
  revert b. induction a as [|x a IH]; intros [|y b]; simpl; try (split; congruence).
  rewrite andb_true_iff, IH. split.
  - intros [Hxy ->]. apply Byte.byte_dec_bl in Hxy. by subst.
  - intros [= -> ->]. split; [apply Byte.byte_dec_lb|]; done.
Qed.

Lemma config_ext (a b : HTTProxyConfig) :
  keyFilename a = keyFilename b -> certFilename a = certFilename b ->
  verbose a = verbose b -> host a = host b -> port a = port b ->
  timeout a = timeout b -> a = b.
Proof. destruct a, b; simpl; congruence. Qed.

Lemma eqb_false_of_ne (a b : string) : a <> b -> String.eqb a b = false.
Proof. apply String.eqb_neq. Qed.

Section ResolverProperties.
Context `{Imports}.

(** Reduction that leaves the environment lookups and the error texts
    folded. *)
Ltac reduce_step := cbn -[LookupEnv Getenv String.append].

(** The result of [readFromEnvironment], field by field. *)
Lemma readFromEnvironment_fields (env : Env) (c : HTTProxyConfig) :
  readFromEnvironment env c =
    ({| keyFilename := resolved_path (keyFilename c) env EnvTLSKey;
        certFilename := resolved_path (certFilename c) env EnvTLSCert;
        verbose := resolved_verbose env c;
        host := resolved_host env c;
        port := resolved_port env c;
        timeout := resolved_timeout env c |},
     match port_error env c with
     | Some e => Some e
     | None => timeout_error env c
     end).
Proof.
  destruct c as [k ce vb h p t].
  unfold readFromEnvironment, resolved_path, resolved_verbose, resolved_host,
    resolved_port, resolved_timeout, port_error, timeout_error.
  cbn [keyFilename certFilename verbose host port timeout].
  destruct (String.eqb ce ""); reduce_step;
  destruct (String.eqb k ""); reduce_step;
  destruct (String.eqb h "localhost"); reduce_step;
  destruct (LookupEnv env EnvHost); reduce_step;
  destruct vb; reduce_step;
  destruct (LookupEnv env EnvVerbose); reduce_step;
  destruct (p =? defaultPort); reduce_step;
  destruct (LookupEnv env EnvPort) as [pv|]; reduce_step;
  try (destruct (Atoi pv) as [n [pe|]]; reduce_step);
  try reflexivity;
  destruct (t =? DefaultTimeout); reduce_step;
  try reflexivity;
  destruct (LookupEnv env EnvTimeout) as [tv|]; reduce_step;
  try reflexivity;
  destruct (ParseDuration tv) as [d [te|]]; reflexivity.
Qed.

Ltac resolve_fields H :=
  rewrite readFromEnvironment_fields in H; injection H as <- <-;
  cbn [keyFilename certFilename verbose host port timeout];
  unfold resolved_path, resolved_host, resolved_verbose, resolved_port,
    resolved_timeout, port_error, timeout_error, Getenv, LookupEnv in *.

(** C3. Precedence: a field that holds its default when
    [readFromEnvironment] runs takes the value of its variable when the
    variable is set (after a successful run); a field set away from its
    default keeps its value whatever the environment holds. *)
Theorem readFromEnvironment_precedence (env : Env) (c c' : HTTProxyConfig)
        (err : option error) :
  readFromEnvironment env c = (c', err) ->
  (err = None ->
     (forall v, certFilename c = "" -> LookupEnv env EnvTLSCert = Some v ->
                certFilename c' = v) /\
     (forall v, keyFilename c = "" -> LookupEnv env EnvTLSKey = Some v ->
                keyFilename c' = v) /\
     (forall v, host c = "localhost" -> LookupEnv env EnvHost = Some v ->
                host c' = v) /\
     (forall v, port c = defaultPort -> LookupEnv env EnvPort = Some v ->
                Atoi v = (port c', None)) /\
     (forall v, timeout c = DefaultTimeout -> LookupEnv env EnvTimeout = Some v ->
                ParseDuration v = (timeout c', None)) /\
     (forall v, verbose c = false -> LookupEnv env EnvVerbose = Some v ->
                verbose c' = negb (String.eqb v "false") && negb (String.eqb v "0"))) /\
  (certFilename c <> "" -> certFilename c' = certFilename c) /\
  (keyFilename c <> "" -> keyFilename c' = keyFilename c) /\
  (host c <> "localhost" -> host c' = host c) /\
  (port c <> defaultPort -> port c' = port c) /\
  (timeout c <> DefaultTimeout -> timeout c' = timeout c) /\
  (verbose c <> false -> verbose c' = verbose c).
Proof.
  intros Hrun. resolve_fields Hrun. split.
  - intros Herr. repeat split; intros v Hdef Hset.
    + by rewrite Hdef, Hset.
    + by rewrite Hdef, Hset.
    + by rewrite Hdef, Hset.
    + rewrite Hdef, Hset in *. change (defaultPort =? defaultPort) with true in *.
      cbn iota in *. destruct (Atoi v) as [n [e|]]; [discriminate|reflexivity].
    + rewrite Hdef, Hset in *. rewrite Z.eqb_refl in *.
      destruct (port c =? defaultPort), (env !! EnvPort) as [pv|];
        try destruct (snd (Atoi pv)); try discriminate;
        destruct (ParseDuration v) as [d [e|]]; try discriminate; reflexivity.
    + by rewrite Hdef, Hset.
  - repeat split; intros Hne.
    + by rewrite (eqb_false_of_ne _ _ Hne).
    + by rewrite (eqb_false_of_ne _ _ Hne).
    + by rewrite (eqb_false_of_ne _ _ Hne).
    + apply Z.eqb_neq in Hne. by rewrite Hne.
    + apply Z.eqb_neq in Hne. rewrite Hne.
      by destruct (port c =? defaultPort), (env !! EnvPort) as [pv|];
        try destruct (snd (Atoi pv)).
    + destruct (verbose c); [reflexivity|congruence].
Qed.

(** C7. The verbosity field, while still false: ["false"] and ["0"]
    resolve to false, every other value of a present variable, the empty
    string included, resolves to true; an absent variable leaves the field
    as it was. *)
Theorem verbose_resolution (env : Env) (c : HTTProxyConfig) :
  let c' := fst (readFromEnvironment env c) in
  (verbose c = false -> LookupEnv env EnvVerbose = Some "false" -> verbose c' = false) /\
  (verbose c = false -> LookupEnv env EnvVerbose = Some "0" -> verbose c' = false) /\
  (forall v, verbose c = false -> LookupEnv env EnvVerbose = Some v ->
             v <> "false" -> v <> "0" -> verbose c' = true) /\
  (verbose c = false -> LookupEnv env EnvVerbose = Some "" -> verbose c' = true) /\
  (LookupEnv env EnvVerbose = None -> verbose c' = verbose c).
Proof.
  intros c'. subst c'. rewrite readFromEnvironment_fields.
  cbn [fst verbose]. unfold resolved_verbose.
  repeat split.
  - by intros -> ->.
  - by intros -> ->.
  - intros v -> -> H1 H2. by rewrite !eqb_false_of_ne.
  - by intros -> ->.
  - intros ->. by destruct (verbose c).
Qed.

Lemma resolved_path_idem (cur : string) (env : Env) (key : string) :
  resolved_path (resolved_path cur env key) env key = resolved_path cur env key.
Proof.
  unfold resolved_path. destruct (String.eqb cur "") eqn:E.
  - by destruct (String.eqb (Getenv env key) "").
  - by rewrite E.
Qed.

Lemma resolved_host_idem (env : Env) (c c' : HTTProxyConfig) :
  host c' = resolved_host env c -> resolved_host env c' = host c'.
Proof.
  unfold resolved_host. intros Hc'.
  destruct (String.eqb (host c) "localhost") eqn:E.
  - destruct (LookupEnv env EnvHost) as [v|].
    + by destruct (String.eqb (host c') "localhost").
    + by destruct (String.eqb (host c') "localhost").
  - rewrite Hc'. by rewrite E.
Qed.

Lemma resolved_verbose_idem (env : Env) (c c' : HTTProxyConfig) :
  verbose c' = resolved_verbose env c -> resolved_verbose env c' = verbose c'.
Proof.
  unfold resolved_verbose. intros Hc'. destruct (verbose c') eqn:E; [done|].
  destruct (verbose c); [done|]. by destruct (LookupEnv env EnvVerbose).
Qed.

Lemma resolved_port_idem (env : Env) (c c' : HTTProxyConfig) :
  port c' = resolved_port env c -> port_error env c = None ->
  resolved_port env c' = port c' /\ port_error env c' = None.
Proof.
  unfold resolved_port, port_error. intros Hc' Herr.
  destruct (port c =? defaultPort) eqn:E.
  - destruct (LookupEnv env EnvPort) as [v|].
    + destruct (snd (Atoi v)); [discriminate|].
      by destruct (port c' =? defaultPort).
    + by destruct (port c' =? defaultPort).
  - rewrite Hc'. by rewrite E.
Qed.

Lemma resolved_timeout_idem (env : Env) (c c' : HTTProxyConfig) :
  timeout c' = resolved_timeout env c ->
  port_error env c = None -> port_error env c' = None ->
  timeout_error env c = None ->
  resolved_timeout env c' = timeout c' /\ timeout_error env c' = None.
Proof.
  unfold resolved_timeout, timeout_error. intros Hc' Hpe Hpe' Herr.
  rewrite Hpe in Hc'. rewrite Hpe'.
  destruct (timeout c =? DefaultTimeout) eqn:E.
  - destruct (LookupEnv env EnvTimeout) as [v|].
    + destruct (snd (ParseDuration v)); [discriminate|].
      by destruct (timeout c' =? DefaultTimeout).
    + by destruct (timeout c' =? DefaultTimeout).
  - rewrite Hc'. by rewrite E.
Qed.

(** C10. [readFromEnvironment] is idempotent: after a run that succeeds,
    a second run on the resulting record in the same environment succeeds
    and changes no field. *)
Theorem readFromEnvironment_idempotent (env : Env) (c c' : HTTProxyConfig) :
  readFromEnvironment env c = (c', None) ->
  readFromEnvironment env c' = (c', None).
Proof.
  intros Hrun. rewrite readFromEnvironment_fields in Hrun.
  injection Hrun as Hc' Herr.
  assert (Hport : port_error env c = None)
    by (destruct (port_error env c); [discriminate|reflexivity]).
  rewrite Hport in Herr.
  destruct (resolved_port_idem env c c') as [Hp Hpe]; [by subst c'|done|].
  destruct (resolved_timeout_idem env c c') as [Ht Hte]; [by subst c'|done..|].
  rewrite readFromEnvironment_fields, Hpe, Hte. f_equal.
  apply config_ext; cbn [keyFilename certFilename verbose host port timeout];
    [| |apply (resolved_verbose_idem env c)|apply (resolved_host_idem env c)|done|done];
    subst c'; cbn [keyFilename certFilename verbose host port timeout];
    auto using resolved_path_idem.
Qed.

End ResolverProperties.

(** ** The bootstrap sequence *)

Section BootstrapProperties.
Context `{Imports}.

(** [main] once [cli.NewConfig], [flag.Parse], [readFromEnvironment] and
    [config.PrivateKey] have succeeded. *)
Lemma main_body_with_key (w : World) (flags cfg : HTTProxyConfig)
      (skey : ECDHPrivateKey) :
  w_NewConfig w = None ->
  w_flags w = Parsed flags ->
  readFromEnvironment (w_env w) flags = (cfg, None) ->
  w_PrivateKey w = Ok skey ->
  main_body w =
    let level := if verbose cfg then [SetLevelDebug] else [] in
    let warning :=
      if negb (String.eqb (host cfg) "localhost")
      then [Stderr (nonLocalhostWarning +:+ nl)] else [] in
    let '(checked, reused) :=
      if useTLS (w_env w) then checkTLSKey w cfg skey else ([], false) in
    if reused
    then (level ++ warning ++ checked, Return None)
    else (level ++ warning ++ checked ++ fst (serve w cfg skey (useTLS (w_env w))),
          snd (serve w cfg skey (useTLS (w_env w)))).
Proof.
  intros Hnew Hflags Hrun Hkey. unfold main_body.
  rewrite Hnew, Hflags, Hrun, Hkey. cbn zeta.
  destruct (if useTLS (w_env w) then _ else _) as [checked [|]]; [done|].
  by destruct (serve w cfg skey (useTLS (w_env w))).
Qed.

(** C1. With TLS enabled, a TLS key file that loads as a public key and
    whose bytes equal the public bytes of the command-authentication key
    makes [main] print the remediation text to standard error and stop:
    the trace ends with the three lines, holds no call of [proxy.New],
    [http.ListenAndServeTLS] or [http.ListenAndServe], and the process
    exits. *)
Theorem credential_reuse_aborts (w : World) (flags cfg : HTTProxyConfig)
        (skey : ECDHPrivateKey) (tlsPublicKey : PublicKey) :
  w_NewConfig w = None ->
  w_flags w = Parsed flags ->
  readFromEnvironment (w_env w) flags = (cfg, None) ->
  w_PrivateKey w = Ok skey ->
  useTLS (w_env w) = true ->
  w_LoadPublicKey w (keyFilename cfg) = Ok tlsPublicKey ->
  Bytes tlsPublicKey = PublicBytes skey ->
  (exists before,
      fst (main w) =
        before ++
        [Stderr ("It is unsafe to use the same private key for TLS and command authentication." +:+ nl);
         Stderr nl;
         Stderr ("Generate a new TLS key for this server." +:+ nl)]) /\
  Forall (fun e => creates_listener e = false /\ constructs_proxy e = false) (fst (main w)) /\
  (exists code, snd (main w) = Exited code).
Proof.
  intros Hnew Hflags Hrun Hkey Htls Hload Hbytes.
  unfold main. rewrite (main_body_with_key w flags cfg skey) by done.
  rewrite Htls. unfold checkTLSKey. rewrite Hload.
  apply bytes_Equal_eq in Hbytes. rewrite Hbytes. cbn iota zeta beta.
  repeat split.
  - eexists. cbn [fst]. by rewrite app_assoc.
  - cbn [fst]. destruct (verbose cfg), (negb (String.eqb (host cfg) "localhost"));
      repeat constructor.
  - by eexists.
Qed.

Lemma readFromEnvironment_error (env : Env) (c : HTTProxyConfig) :
  snd (readFromEnvironment env c) =
    match port_error env c with
    | Some e => Some e
    | None => timeout_error env c
    end.
Proof. by rewrite readFromEnvironment_fields. Qed.

(** C4. A port variable that [strconv.Atoi] rejects, read while the port
    holds its default, makes [readFromEnvironment] return the error
    "invalid port: " followed by the raw value; a timeout variable that
    [time.ParseDuration] rejects, read while the timeout holds its
    default, makes it return "invalid timeout: " followed by the raw
    value, unless the port step has already failed with its own error;
    and on any error of [readFromEnvironment], [main] prints it and exits
    with status 1 before the key check, [proxy.New] or a listener. *)
Theorem invalid_port_or_timeout_aborts :
  (forall (env : Env) (c : HTTProxyConfig) (v e : string) (n : Z),
      port c = defaultPort -> LookupEnv env EnvPort = Some v ->
      Atoi v = (n, Some e) ->
      snd (readFromEnvironment env c) = Some ("invalid port: " +:+ v)) /\
  (forall (env : Env) (c : HTTProxyConfig) (v e : string) (d : Z),
      timeout c = DefaultTimeout -> LookupEnv env EnvTimeout = Some v ->
      ParseDuration v = (d, Some e) ->
      snd (readFromEnvironment env c) = Some ("invalid timeout: " +:+ v) \/
      (exists (pv pe : string) (n : Z),
          port c = defaultPort /\ LookupEnv env EnvPort = Some pv /\
          Atoi pv = (n, Some pe) /\
          snd (readFromEnvironment env c) = Some ("invalid port: " +:+ pv))) /\
  (forall (w : World) (flags : HTTProxyConfig) (e : string),
      w_NewConfig w = None -> w_flags w = Parsed flags ->
      snd (readFromEnvironment (w_env w) flags) = Some e ->
      main w = ([Stderr ("Error reading environment: " +:+ e +:+ nl)], Exited 1)).
Proof.
  split; [|split].
  - intros env c v e n Hdef Hset Hatoi.
    rewrite readFromEnvironment_error. unfold port_error.
    by rewrite Hdef, Hset, Hatoi.
  - intros env c v e d Hdef Hset Hparse.
    rewrite readFromEnvironment_error. unfold port_error, timeout_error.
    rewrite Hdef, Hset, Hparse, Z.eqb_refl. cbn [snd].
    destruct (port c =? defaultPort) eqn:Eport; [|by left].
    destruct (LookupEnv env EnvPort) as [pv|]; [|by left].
    destruct (Atoi pv) as [n [pe|]] eqn:Eatoi; [|by left].
    right. exists pv, pe, n. apply Z.eqb_eq in Eport. by rewrite Eatoi.
  - intros w flags e Hnew Hflags Herr.
    unfold main, main_body. rewrite Hnew, Hflags.
    destruct (readFromEnvironment (w_env w) flags) as [cfg err].
    cbn [snd] in Herr. by subst err.
Qed.

(** C9. TLS is switched off exactly when the variable
    TESLA_HTTP_PROXY_DISABLE_TLS is set to the string "true": any other
    value of a set variable leaves it on (and an absent variable too),
    so that a value other than "true", "false" and "0" (such as "1",
    "TRUE" or "yes") keeps TLS on although the verbosity variable reads
    the same text as true; and with the variable at "true" no run of
    [main] calls [http.ListenAndServeTLS]. *)
Theorem useTLS_disabled_iff (env : Env) :
  (useTLS env = false <-> LookupEnv env EnvDisableTLS = Some "true") /\
  (forall v, LookupEnv env EnvDisableTLS = Some v -> v <> "true" -> useTLS env = true) /\
  (forall (c : HTTProxyConfig) (v : string),
      v <> "true" -> v <> "false" -> v <> "0" ->
      verbose c = false ->
      LookupEnv env EnvVerbose = Some v ->
      LookupEnv env EnvDisableTLS = Some v ->
      verbose (fst (readFromEnvironment env c)) = true /\ useTLS env = true) /\
  (forall w : World,
      w_env w = env -> LookupEnv env EnvDisableTLS = Some "true" ->
      Forall (fun e => is_ListenAndServeTLS e = false) (fst (main w))).
Proof.
  unfold useTLS. split; [split|split; [|split]].
  - destruct (LookupEnv env EnvDisableTLS) as [v|]; [|discriminate].
    destruct (String.eqb_spec v "true") as [->|]; [done|discriminate].
  - by intros ->.
  - intros v Hset Hne. rewrite Hset. by rewrite (eqb_false_of_ne _ _ Hne).
  - intros c v Htrue Hfalse Hzero Hdef Hverbose Hset.
    rewrite readFromEnvironment_fields. cbn [fst verbose].
    unfold resolved_verbose. rewrite Hdef, Hverbose, Hset.
    by rewrite !eqb_false_of_ne.
  - intros w <- Hset. unfold main, main_body.
    destruct (w_NewConfig w); [by repeat constructor|].
    destruct (w_flags w) as [flags|]; [|by repeat constructor].
    destruct (readFromEnvironment (w_env w) flags) as [cfg [e|]];
      [by repeat constructor|].
    unfold useTLS, serve. rewrite Hset. cbn [String.eqb negb andb].
    destruct (verbose cfg), (negb (String.eqb (host cfg) "localhost")),
      (w_PrivateKey w) as [skey|e]; try (by repeat constructor);
      cbn; destruct (w_proxyNew w skey cacheSize) as [p|e];
      try (by repeat constructor); cbn;
      destruct (w_ListenAndServe w _ _); by repeat constructor.
Qed.

Lemma exposure_warning_elem (l : list Event) :
  Stderr (nonLocalhostWarning +:+ nl) ∈ l <-> existsb is_exposure_warning l = true.
Proof.
  rewrite existsb_exists. setoid_rewrite <- list_elem_of_In. split.
  - intros Hin. eexists. split; [exact Hin|]. apply String.eqb_refl.
  - intros [[] [Hin Hw]]; try discriminate.
    apply String.eqb_eq in Hw. by subst.
Qed.

Lemma checkTLSKey_quiet (w : World) (cfg : HTTProxyConfig) (skey : ECDHPrivateKey) :
  existsb is_exposure_warning (fst (checkTLSKey w cfg skey)) = false /\
  List.filter creates_listener (fst (checkTLSKey w cfg skey)) = [].
Proof.
  unfold checkTLSKey. destruct (w_LoadPublicKey w (keyFilename cfg)) as [k|e];
    [destruct (bytes_Equal (Bytes k) (PublicBytes skey))|]; by split.
Qed.

(** The trace of [serve]: no exposure warning, and once [proxy.New] has
    succeeded exactly one listener, chosen by the three conditions. *)
Lemma serve_quiet (w : World) (cfg : HTTProxyConfig) (skey : ECDHPrivateKey)
      (tls : bool) :
  existsb is_exposure_warning (fst (serve w cfg skey tls)) = false.
Proof.
  unfold serve. destruct (w_proxyNew w skey cacheSize) as [p|e]; [|done].
  cbn zeta. destruct (tls && _ && _);
    [destruct (w_ListenAndServeTLS w _ _ _ _)|destruct (w_ListenAndServe w _ _)];
    reflexivity.
Qed.

Lemma serve_listener (w : World) (cfg : HTTProxyConfig) (skey : ECDHPrivateKey)
      (tls : bool) (p : Proxy) :
  w_proxyNew w skey cacheSize = Ok p ->
  let addr := host cfg +:+ ":" +:+ fmt_d (port cfg) in
  let handler := set_Timeout (timeout cfg) p in
  List.filter creates_listener (fst (serve w cfg skey tls)) =
    [if tls && negb (String.eqb (certFilename cfg) "")
            && negb (String.eqb (keyFilename cfg) "")
     then ListenAndServeTLS addr (certFilename cfg) (keyFilename cfg) handler
     else ListenAndServe addr handler] /\
  (snd (serve w cfg skey tls) = Return None \/ snd (serve w cfg skey tls) = Blocked).
Proof.
  intros Hnew. unfold serve. rewrite Hnew. cbn zeta.
  destruct (tls && _ && _);
    [destruct (w_ListenAndServeTLS w _ _ _ _)|destruct (w_ListenAndServe w _ _)];
    split; try reflexivity; auto.
Qed.

Lemma serve_starts (w : World) (cfg : HTTProxyConfig) (skey : ECDHPrivateKey)
      (tls : bool) :
  exists rest,
    fst (serve w cfg skey tls) = LogDebug "Creating proxy" :: ProxyNew skey cacheSize :: rest.
Proof.
  unfold serve. destruct (w_proxyNew w skey cacheSize) as [p|e]; [|by eexists].
  cbn zeta. destruct (tls && _ && _);
    [destruct (w_ListenAndServeTLS w _ _ _ _)|destruct (w_ListenAndServe w _ _)];
    by eexists.
Qed.

(** [main] and [main_body] leave the same trace but for the line the
    deferred function prints. *)
Lemma main_of_body (w : World) :
  main w =
    match snd (main_body w) with
    | Return (Some e) => (fst (main_body w) ++ [Stderr ("Error: " +:+ e +:+ nl)], Exited 1)
    | Return None => (fst (main_body w), Exited 0)
    | OsExit code => (fst (main_body w), Exited code)
    | Blocked => (fst (main_body w), Serving)
    end.
Proof. unfold main. by destruct (main_body w) as [t [[e|]|code|]]. Qed.

(** C8, as amended. Once the configuration is resolved, the exposure
    warning is written to standard error exactly when the resolved host
    differs from the string "localhost"; main.go knows no other spelling of
    the loopback address, so a host such as 127.0.0.1 or ::1 gets the
    warning too. *)
Theorem exposure_warning_iff (w : World) (flags cfg : HTTProxyConfig) :
  w_NewConfig w = None ->
  w_flags w = Parsed flags ->
  readFromEnvironment (w_env w) flags = (cfg, None) ->
  Stderr (nonLocalhostWarning +:+ nl) ∈ fst (main w) <-> host cfg <> "localhost".
Proof.
  intros Hnew Hflags Hrun. rewrite exposure_warning_elem.
  assert (Hlevel : forall b : bool,
             existsb is_exposure_warning (if b then [SetLevelDebug] else []) = false)
    by (by intros []).
  assert (Hwarn : existsb is_exposure_warning
                    (if negb (String.eqb (host cfg) "localhost")
                     then [Stderr (nonLocalhostWarning +:+ nl)] else []) = true
                  <-> host cfg <> "localhost").
  { destruct (String.eqb_spec (host cfg) "localhost") as [E|E]; cbn [negb].
    - split; [discriminate|done].
    - split; [done|]. intros _. cbn [existsb is_exposure_warning].
      by rewrite String.eqb_refl. }
  rewrite <- Hwarn. clear Hwarn.
  destruct (w_PrivateKey w) as [skey|e] eqn:Hkey.
  - rewrite main_of_body, (main_body_with_key w flags cfg skey) by done.
    cbn zeta.
    pose proof (checkTLSKey_quiet w cfg skey) as [Hgate _].
    pose proof (serve_quiet w cfg skey (useTLS (w_env w))) as Hserve.
    destruct (useTLS (w_env w)).
    + destruct (checkTLSKey w cfg skey) as [checked [|]]; cbn [fst snd] in *.
      * by rewrite !existsb_app, Hlevel, Hgate, orb_false_r.
      * destruct (serve w cfg skey true) as [served [[e|]|code|]]; cbn [fst snd] in *;
          rewrite !existsb_app, ?Hlevel, ?Hgate, ?Hserve, ?orb_false_r; try done.
    + destruct (serve w cfg skey false) as [served [[e|]|code|]]; cbn [fst snd] in *;
        rewrite !existsb_app, ?Hlevel, ?Hserve, ?orb_false_r; try done.
  - unfold main, main_body. rewrite Hnew, Hflags, Hrun, Hkey.
    cbn beta iota zeta delta [fst].
    by rewrite !existsb_app, Hlevel, !orb_false_r.
Qed.

Lemma filter_listener_prefix (cfg : HTTProxyConfig) :
  List.filter creates_listener
    ((if verbose cfg then [SetLevelDebug] else []) ++
     (if negb (String.eqb (host cfg) "localhost")
      then [Stderr (nonLocalhostWarning +:+ nl)] else [])) = [].
Proof. by destruct (verbose cfg), (negb (String.eqb (host cfg) "localhost")). Qed.

(** The listeners started by a run that passes the key check and obtains
    its handler from [proxy.New]. *)
Lemma main_listener (w : World) (flags cfg : HTTProxyConfig)
      (skey : ECDHPrivateKey) (p : Proxy) :
  w_NewConfig w = None ->
  w_flags w = Parsed flags ->
  readFromEnvironment (w_env w) flags = (cfg, None) ->
  w_PrivateKey w = Ok skey ->
  (useTLS (w_env w) = true -> snd (checkTLSKey w cfg skey) = false) ->
  w_proxyNew w skey cacheSize = Ok p ->
  List.filter creates_listener (fst (main w)) =
    [if useTLS (w_env w) && negb (String.eqb (certFilename cfg) "")
                         && negb (String.eqb (keyFilename cfg) "")
     then ListenAndServeTLS (host cfg +:+ ":" +:+ fmt_d (port cfg))
                            (certFilename cfg) (keyFilename cfg)
                            (set_Timeout (timeout cfg) p)
     else ListenAndServe (host cfg +:+ ":" +:+ fmt_d (port cfg))
                         (set_Timeout (timeout cfg) p)].
Proof.
  intros Hnew Hflags Hrun Hkey Hgate Hproxy.
  rewrite main_of_body, (main_body_with_key w flags cfg skey) by done.
  cbn zeta.
  destruct (serve_listener w cfg skey (useTLS (w_env w)) p Hproxy) as [Hl Hstop].
  pose proof (checkTLSKey_quiet w cfg skey) as [_ Hquiet].
  pose proof (filter_listener_prefix cfg) as Hpre.
  destruct (useTLS (w_env w)).
  - specialize (Hgate eq_refl).
    destruct (checkTLSKey w cfg skey) as [checked reused].
    cbn [fst snd] in *. subst reused.
    destruct Hstop as [-> | ->]; cbn [fst snd];
      by rewrite app_assoc, List.filter_app, Hpre, List.filter_app, Hquiet, Hl.
  - destruct Hstop as [-> | ->]; cbn [fst snd app];
      by rewrite app_assoc, List.filter_app, Hpre, Hl.
Qed.

(** C5. In a run that reaches the transport selection, the listener is
    [http.ListenAndServeTLS] on host:port exactly when TLS is not disabled
    through the environment and both the certificate path and the key path
    are non-empty, and [http.ListenAndServe] on the same address with the
    same handler in every other case; one listener is started, never both.
    With an empty environment and the default flags it is the plaintext
    listener on localhost:8080. *)
Theorem transport_decision :
  (forall (w : World) (flags cfg : HTTProxyConfig) (skey : ECDHPrivateKey) (p : Proxy),
      w_NewConfig w = None ->
      w_flags w = Parsed flags ->
      readFromEnvironment (w_env w) flags = (cfg, None) ->
      w_PrivateKey w = Ok skey ->
      (useTLS (w_env w) = true -> snd (checkTLSKey w cfg skey) = false) ->
      w_proxyNew w skey cacheSize = Ok p ->
      let addr := host cfg +:+ ":" +:+ fmt_d (port cfg) in
      let handler := set_Timeout (timeout cfg) p in
      let started := List.filter creates_listener (fst (main w)) in
      (started = [ListenAndServeTLS addr (certFilename cfg) (keyFilename cfg) handler]
       <-> useTLS (w_env w) = true /\ certFilename cfg <> "" /\ keyFilename cfg <> "") /\
      (started = [ListenAndServe addr handler]
       <-> ~ (useTLS (w_env w) = true /\ certFilename cfg <> "" /\ keyFilename cfg <> ""))) /\
  (forall (w : World) (skey : ECDHPrivateKey) (p : Proxy) (e : error),
      w_env w = ∅ ->
      w_NewConfig w = None ->
      w_flags w = Parsed (flagDefaults DefaultTimeout) ->
      w_PrivateKey w = Ok skey ->
      w_LoadPublicKey w "" = Err e ->
      w_proxyNew w skey cacheSize = Ok p ->
      readFromEnvironment (w_env w) (flagDefaults DefaultTimeout)
        = (flagDefaults DefaultTimeout, None) /\
      List.filter creates_listener (fst (main w))
        = [ListenAndServe "localhost:8080" (set_Timeout DefaultTimeout p)]).
Proof.
  split.
  - intros w flags cfg skey p Hnew Hflags Hrun Hkey Hgate Hproxy addr handler started.
    subst started. rewrite (main_listener w flags cfg skey p) by done.
    fold addr handler.
    destruct (useTLS (w_env w));
      destruct (String.eqb_spec (certFilename cfg) "") as [Ec|Ec];
      destruct (String.eqb_spec (keyFilename cfg) "") as [Ek|Ek];
      cbn [andb negb]; (split; split; intros; try discriminate; intuition congruence).
  - intros w skey p e Henv Hnew Hflags Hkey Hload Hproxy.
    assert (Hrun : readFromEnvironment (w_env w) (flagDefaults DefaultTimeout)
                   = (flagDefaults DefaultTimeout, None)).
    { rewrite readFromEnvironment_fields, Henv.
      unfold resolved_path, resolved_host, resolved_verbose, resolved_port,
        resolved_timeout, port_error, timeout_error, Getenv, LookupEnv.
      rewrite !lookup_empty. cbn [flagDefaults keyFilename certFilename verbose host port timeout].
      by rewrite !Z.eqb_refl. }
    split; [done|].
    rewrite (main_listener w _ _ skey p Hnew Hflags Hrun Hkey); [|..|done].
    + by rewrite andb_false_r.
    + intros _. unfold checkTLSKey. cbn [flagDefaults keyFilename]. by rewrite Hload.
Qed.

(** C6. With TLS enabled, a TLS key file that does not load as a public
    key does not stop [main]: it logs at debug level and goes on to
    [proxy.New] and, with the handler built, to one listener, with the
    same events and the same end as a run whose key file loads and differs
    from the command-authentication key; only the debug line of the check
    is worded differently. *)
Theorem unloadable_tls_key_proceeds (w : World) (flags cfg : HTTProxyConfig)
        (skey : ECDHPrivateKey) (e : error) :
  w_NewConfig w = None ->
  w_flags w = Parsed flags ->
  readFromEnvironment (w_env w) flags = (cfg, None) ->
  w_PrivateKey w = Ok skey ->
  useTLS (w_env w) = true ->
  w_LoadPublicKey w (keyFilename cfg) = Err e ->
  exists before rest,
    fst (main w) =
      before ++
      LogDebug "Verified that TLS key is not a recycled command-authentication key, because it is not NIST P256."
      :: LogDebug "Creating proxy" :: ProxyNew skey cacheSize :: rest /\
    (forall p, w_proxyNew w skey cacheSize = Ok p ->
               exists listener, List.filter creates_listener rest = [listener]) /\
    (forall k : PublicKey,
        Bytes k <> PublicBytes skey ->
        let w' := with_LoadPublicKey (fun _ => Ok k) w in
        fst (main w') =
          before ++
          LogDebug "Verified that TLS key is not the same as the command-authentication key."
          :: LogDebug "Creating proxy" :: ProxyNew skey cacheSize :: rest /\
        snd (main w') = snd (main w)).
Proof.
  intros Hnew Hflags Hrun Hkey Htls Hload.
  destruct (serve_starts w cfg skey true) as [rest Hrest].
  set (before := (if verbose cfg then [SetLevelDebug] else []) ++
                 (if negb (String.eqb (host cfg) "localhost")
                  then [Stderr (nonLocalhostWarning +:+ nl)] else [])).
  set (tail := match snd (serve w cfg skey true) with
               | Return (Some err) => [Stderr ("Error: " +:+ err +:+ nl)]
               | _ => []
               end).
  exists before, (rest ++ tail).
  assert (Hmain : forall (w0 : World) (line : string),
             w_NewConfig w0 = None -> w_flags w0 = Parsed flags ->
             w_env w0 = w_env w -> w_PrivateKey w0 = Ok skey ->
             serve w0 cfg skey true = serve w cfg skey true ->
             checkTLSKey w0 cfg skey = ([LogDebug line], false) ->
             fst (main w0) =
               before ++ LogDebug line :: LogDebug "Creating proxy"
                      :: ProxyNew skey cacheSize :: rest ++ tail /\
             snd (main w0) =
               match snd (serve w cfg skey true) with
               | Return (Some _) => Exited 1
               | Return None => Exited 0
               | OsExit code => Exited code
               | Blocked => Serving
               end).
  { intros w0 line Hnew0 Hflags0 Henv0 Hkey0 Hserve0 Hcheck0.
    rewrite main_of_body, (main_body_with_key w0 flags cfg skey)
      by (rewrite ?Henv0; done).
    rewrite Henv0, Htls, Hcheck0, Hserve0. cbn zeta iota. subst tail before.
    rewrite Hrest.
    destruct (snd (serve w cfg skey true)) as [[err|]|code|]; cbn [fst snd];
      rewrite <- ?app_assoc; cbn [app]; by rewrite ?app_nil_r. }
  assert (Hcheck : checkTLSKey w cfg skey =
            ([LogDebug "Verified that TLS key is not a recycled command-authentication key, because it is not NIST P256."],
             false))
    by (unfold checkTLSKey; by rewrite Hload).
  destruct (Hmain w _ Hnew Hflags eq_refl Hkey eq_refl Hcheck) as [Htrace Hend].
  split; [done|split].
  - intros p Hproxy.
    destruct (serve_listener w cfg skey true p Hproxy) as [Hl Hstop].
    rewrite Hrest in Hl. cbn [List.filter creates_listener] in Hl.
    eexists. rewrite List.filter_app, Hl. subst tail.
    by destruct Hstop as [-> | ->].
  - intros k Hk w'. rewrite Hend.
    apply (Hmain w'); try done.
    unfold checkTLSKey. cbn [w' with_LoadPublicKey w_LoadPublicKey].
    destruct (bytes_Equal (Bytes k) (PublicBytes skey)) eqn:E; [|done].
    by apply bytes_Equal_eq in E.
Qed.

(** C2. Every run that takes the branch of [main] that detects the reused
    key returns with the variable [err] of [main] nil (the [err] tested on
    line 132 belongs to the [if] statement, and
    [skey, err = config.PrivateKey()] left the outer one nil), so the
    deferred function does not call [os.Exit] and the process ends with
    status 0. *)
Theorem credential_reuse_exit_status (w : World) (flags cfg : HTTProxyConfig)
      (skey : ECDHPrivateKey) (tlsPublicKey : PublicKey) :
  w_NewConfig w = None ->
  w_flags w = Parsed flags ->
  readFromEnvironment (w_env w) flags = (cfg, None) ->
  w_PrivateKey w = Ok skey ->
  useTLS (w_env w) = true ->
  w_LoadPublicKey w (keyFilename cfg) = Ok tlsPublicKey ->
  Bytes tlsPublicKey = PublicBytes skey ->
  snd (main_body w) = Return None /\ snd (main w) = Exited 0.
Proof.
  intros Hnew Hflags Hrun Hkey Htls Hload Hbytes.
  unfold main. rewrite (main_body_with_key w flags cfg skey) by done.
  rewrite Htls. unfold checkTLSKey. rewrite Hload.
  apply bytes_Equal_eq in Hbytes. by rewrite Hbytes.
Qed.

End BootstrapProperties.

(** ** The statements on the sample runs *)

Section SampleRuns.
Import Sample.
Local Existing Instance imports.

Lemma credential_reuse_aborts_witness :
  w_NewConfig reuseWorld = None /\
  w_flags reuseWorld = Parsed defaults /\
  readFromEnvironment (w_env reuseWorld) defaults = (tlsConfig, None) /\
  w_PrivateKey reuseWorld = Ok commandKey /\
  useTLS (w_env reuseWorld) = true /\
  w_LoadPublicKey reuseWorld (keyFilename tlsConfig) = Ok sameKey /\
  Bytes sameKey = PublicBytes commandKey /\
  Forall (fun e => creates_listener e = false /\ constructs_proxy e = false)
         (fst (main reuseWorld)).
Proof.
  do 7 (split; [reflexivity|]).
  apply (credential_reuse_aborts reuseWorld defaults tlsConfig commandKey sameKey);
    reflexivity.
Defined.

(** Scenario D: certificate and key supplied, TLS not disabled, and the
    key file holding the public key of the command-authentication key. *)
Lemma credential_reuse_exit_status_witness :
  w_NewConfig reuseWorld = None /\
  w_flags reuseWorld = Parsed defaults /\
  readFromEnvironment (w_env reuseWorld) defaults = (tlsConfig, None) /\
  w_PrivateKey reuseWorld = Ok commandKey /\
  useTLS (w_env reuseWorld) = true /\
  w_LoadPublicKey reuseWorld (keyFilename tlsConfig) = Ok sameKey /\
  Bytes sameKey = PublicBytes commandKey /\
  snd (main_body reuseWorld) = Return None /\
  snd (main reuseWorld) = Exited 0.
Proof.
  do 7 (split; [reflexivity|]).
  apply (credential_reuse_exit_status reuseWorld defaults tlsConfig commandKey sameKey);
    reflexivity.
Defined.

Lemma readFromEnvironment_precedence_witness :
  readFromEnvironment fullEnv keyFlag = (fullConfig, None) /\
  host fullConfig = "0.0.0.0" /\
  Atoi "9090" = (port fullConfig, None) /\
  ParseDuration "30s" = (timeout fullConfig, None) /\
  keyFilename fullConfig = keyFilename keyFlag.
Proof.
  split; [reflexivity|].
  destruct (readFromEnvironment_precedence fullEnv keyFlag fullConfig None)
    as [Hset (_ & Hkey & _)]; [reflexivity|].
  destruct (Hset eq_refl) as (_ & _ & Hhost & Hport & Htimeout & _).
  split; [|split; [|split]].
  - apply Hhost; reflexivity.
  - apply Hport; reflexivity.
  - apply Htimeout; reflexivity.
  - apply Hkey. discriminate.
Defined.

Lemma invalid_port_or_timeout_aborts_witness :
  snd (readFromEnvironment (<[EnvPort := "abc"]> ∅) defaults) = Some "invalid port: abc" /\
  (snd (readFromEnvironment (<[EnvTimeout := "soon"]> ∅) defaults) = Some "invalid timeout: soon" \/
   exists (pv pe : string) (n : Z),
     port defaults = defaultPort /\
     LookupEnv (<[EnvTimeout := "soon"]> ∅) EnvPort = Some pv /\
     Atoi pv = (n, Some pe) /\
     snd (readFromEnvironment (<[EnvTimeout := "soon"]> ∅) defaults)
       = Some ("invalid port: " +:+ pv)) /\
  main (world (<[EnvPort := "abc"]> ∅) defaults) =
    ([Stderr ("Error reading environment: invalid port: abc" +:+ nl)], Exited 1).
Proof.
  destruct invalid_port_or_timeout_aborts as (Hport & Htimeout & Hmain).
  split; [|split].
  - eapply (Hport (<[EnvPort := "abc"]> ∅) defaults "abc"); reflexivity.
  - eapply (Htimeout (<[EnvTimeout := "soon"]> ∅) defaults "soon"); reflexivity.
  - apply (Hmain (world (<[EnvPort := "abc"]> ∅) defaults) defaults "invalid port: abc");
      reflexivity.
Defined.

Lemma transport_decision_witness :
  List.filter creates_listener (fst (main distinctWorld)) =
    [ListenAndServeTLS "localhost:8080" "server.crt" "server.key" newProxy] /\
  List.filter creates_listener (fst (main (world ∅ defaults))) =
    [ListenAndServe "localhost:8080" newProxy].
Proof.
  destruct transport_decision as [Hdecision Hdefault]. split.
  - apply (Hdecision distinctWorld defaults tlsConfig commandKey newProxy);
      try reflexivity; repeat split; discriminate.
  - apply (Hdefault (world ∅ defaults) commandKey newProxy
                    "open : no such file or directory"); reflexivity.
Defined.

Lemma unloadable_tls_key_proceeds_witness :
  w_NewConfig (world tlsEnv defaults) = None /\
  w_flags (world tlsEnv defaults) = Parsed defaults /\
  readFromEnvironment (w_env (world tlsEnv defaults)) defaults = (tlsConfig, None) /\
  w_PrivateKey (world tlsEnv defaults) = Ok commandKey /\
  useTLS (w_env (world tlsEnv defaults)) = true /\
  w_LoadPublicKey (world tlsEnv defaults) (keyFilename tlsConfig)
    = Err "open : no such file or directory" /\
  Bytes otherKey <> PublicBytes commandKey /\
  snd (main distinctWorld) = snd (main (world tlsEnv defaults)).
Proof.
  do 6 (split; [reflexivity|]). split; [discriminate|].
  destruct (unloadable_tls_key_proceeds (world tlsEnv defaults) defaults tlsConfig
              commandKey "open : no such file or directory"
              ltac:(reflexivity) ltac:(reflexivity) ltac:(reflexivity)
              ltac:(reflexivity) ltac:(reflexivity) ltac:(reflexivity))
    as (before & rest & _ & _ & Hsame).
  apply (Hsame otherKey). discriminate.
Defined.

Lemma verbose_resolution_witness :
  verbose defaults = false /\
  LookupEnv (<[EnvVerbose := ""]> ∅) EnvVerbose = Some "" /\
  verbose (fst (readFromEnvironment (<[EnvVerbose := ""]> ∅) defaults)) = true /\
  verbose (fst (readFromEnvironment (<[EnvVerbose := "0"]> ∅) defaults)) = false.
Proof.
  do 2 (split; [reflexivity|]). split.
  - pose proof (verbose_resolution (<[EnvVerbose := ""]> ∅) defaults) as Hv.
    cbv zeta in Hv. destruct Hv as (_ & _ & _ & Hempty & _).
    apply Hempty; reflexivity.
  - pose proof (verbose_resolution (<[EnvVerbose := "0"]> ∅) defaults) as Hv.
    cbv zeta in Hv. destruct Hv as (_ & Hzero & _).
    apply Hzero; reflexivity.
Defined.

Lemma exposure_warning_iff_witness :
  w_NewConfig (world (<[EnvHost := "0.0.0.0"]> ∅) defaults) = None /\
  w_flags (world (<[EnvHost := "0.0.0.0"]> ∅) defaults) = Parsed defaults /\
  readFromEnvironment (<[EnvHost := "0.0.0.0"]> ∅) defaults
    = (set_host "0.0.0.0" defaults, None) /\
  Stderr (nonLocalhostWarning +:+ nl)
    ∈ fst (main (world (<[EnvHost := "0.0.0.0"]> ∅) defaults)) /\
  Stderr (nonLocalhostWarning +:+ nl) ∉ fst (main (world ∅ defaults)).
Proof.
  do 3 (split; [reflexivity|]). split.
  - apply (exposure_warning_iff (world (<[EnvHost := "0.0.0.0"]> ∅) defaults)
             defaults (set_host "0.0.0.0" defaults)); try reflexivity.
    discriminate.
  - intros Hin.
    apply (exposure_warning_iff (world ∅ defaults) defaults defaults) in Hin;
      try reflexivity.
    by apply Hin.
Defined.

(** C8 as the spec words it fails: 127.0.0.1 is the loopback address, and
    a run whose resolved host is 127.0.0.1 prints the exposure warning. *)
Lemma exposure_warning_loopback_counterexample :
  spec_loopback "127.0.0.1" = true /\
  w_NewConfig (world (<[EnvHost := "127.0.0.1"]> ∅) defaults) = None /\
  w_flags (world (<[EnvHost := "127.0.0.1"]> ∅) defaults) = Parsed defaults /\
  readFromEnvironment (<[EnvHost := "127.0.0.1"]> ∅) defaults
    = (set_host "127.0.0.1" defaults, None) /\
  Stderr (nonLocalhostWarning +:+ nl)
    ∈ fst (main (world (<[EnvHost := "127.0.0.1"]> ∅) defaults)).
Proof.
  do 4 (split; [reflexivity|]).
  vm_compute. apply list_elem_of_here.
Qed.

Lemma useTLS_disabled_iff_witness :
  LookupEnv (<[EnvDisableTLS := "true"]> ∅) EnvDisableTLS = Some "true" /\
  useTLS (<[EnvDisableTLS := "true"]> ∅) = false /\
  useTLS (<[EnvDisableTLS := "1"]> ∅) = true /\
  verbose (fst (readFromEnvironment
                  (<[EnvVerbose := "TRUE"]> (<[EnvDisableTLS := "TRUE"]> ∅)) defaults)) = true /\
  useTLS (<[EnvVerbose := "TRUE"]> (<[EnvDisableTLS := "TRUE"]> ∅)) = true.
Proof.
  split; [reflexivity|]. split; [|split].
  - destruct (useTLS_disabled_iff (<[EnvDisableTLS := "true"]> ∅)) as (Hiff & _).
    apply Hiff. reflexivity.
  - destruct (useTLS_disabled_iff (<[EnvDisableTLS := "1"]> ∅)) as (_ & Hon & _).
    apply (Hon "1"); [reflexivity|discriminate].
  - destruct (useTLS_disabled_iff (<[EnvVerbose := "TRUE"]> (<[EnvDisableTLS := "TRUE"]> ∅)))
      as (_ & _ & Hboth & _).
    apply (Hboth defaults "TRUE"); try reflexivity; discriminate.
Defined.

Lemma readFromEnvironment_idempotent_witness :
  readFromEnvironment fullEnv keyFlag = (fullConfig, None) /\
  readFromEnvironment fullEnv fullConfig = (fullConfig, None).
Proof.
  split; [reflexivity|].
  apply (readFromEnvironment_idempotent fullEnv keyFlag fullConfig). reflexivity.
Defined.

End SampleRuns.


(** ** Every run of [main] *)

Section RunProperties.
Context `{Imports}.

(** Every run of [main] is one of the eight cases of [Run]. *)
Lemma main_run (w : World) : Run w (main w).
Proof.
  unfold main, main_body.
  destruct (w_NewConfig w) as [e|] eqn:Hnew; [by apply Run_NewConfig|].
  destruct (w_flags w) as [flags|code] eqn:Hflags; [|by apply Run_FlagExit].
  destruct (readFromEnvironment (w_env w) flags) as [cfg [e|]] eqn:Hrun;
    [by eapply Run_Environment|].
  cbn zeta.
  destruct (w_PrivateKey w) as [skey|e] eqn:Hkey;
    [|by eapply Run_PrivateKey].
  fold (keyCheck w cfg skey).
  destruct (keyCheck w cfg skey) as [checked [|]] eqn:Hcheck.
  { rewrite app_assoc. by eapply Run_Reuse. }
  unfold serve.
  destruct (w_proxyNew w skey cacheSize) as [p|e] eqn:Hproxy.
  - cbn zeta. fold (listenAddr cfg).
    pose proof (eq_refl (chosen_listener cfg (useTLS (w_env w)) p)) as Hev.
    unfold chosen_listener at 2 in Hev.
    destruct (useTLS (w_env w) && _ && _).
    + destruct (w_ListenAndServeTLS w _ _ _ _) as [e|] eqn:Hl;
        rewrite <- ?app_assoc; cbn [app]; rewrite <- Hev, app_assoc.
      * eapply Run_Stopped; try done. by rewrite Hev.
      * eapply Run_Serving; try done. by rewrite Hev.
    + destruct (w_ListenAndServe w _ _) as [e|] eqn:Hl;
        rewrite <- ?app_assoc; cbn [app]; rewrite <- Hev, app_assoc.
      * eapply Run_Stopped; try done. by rewrite Hev.
      * eapply Run_Serving; try done. by rewrite Hev.
  - rewrite <- ?app_assoc; cbn [app]. rewrite app_assoc. by eapply Run_ProxyNew.
Qed.

(** The results of the calls fix the case, so [Run] has one result. *)
Lemma Run_functional (w : World) (r1 r2 : list Event * Outcome) :
  Run w r1 -> Run w r2 -> r1 = r2.
Proof.
  intros R1 R2. inversion R1; inversion R2; congruence.
Qed.

Lemma main_eq (w : World) (r : list Event * Outcome) : Run w r -> main w = r.
Proof. intros R. apply (Run_functional w); [apply main_run|exact R]. Qed.

End RunProperties.

(** ** More on the environment resolver *)

Section ResolverCoverage.
Context `{Imports}.

(** [readFromEnvironment] sees the environment through [os.Getenv] of the
    two path variables and [os.LookupEnv] of the other four. *)
Lemma readFromEnvironment_ext (env1 env2 : Env) (c : HTTProxyConfig) :
  Getenv env1 EnvTLSCert = Getenv env2 EnvTLSCert ->
  Getenv env1 EnvTLSKey = Getenv env2 EnvTLSKey ->
  LookupEnv env1 EnvHost = LookupEnv env2 EnvHost ->
  LookupEnv env1 EnvVerbose = LookupEnv env2 EnvVerbose ->
  LookupEnv env1 EnvPort = LookupEnv env2 EnvPort ->
  LookupEnv env1 EnvTimeout = LookupEnv env2 EnvTimeout ->
  readFromEnvironment env1 c = readFromEnvironment env2 c.
Proof.
  intros Hcert Hkey Hhost Hverbose Hport Htimeout.
  rewrite !readFromEnvironment_fields.
  unfold resolved_path, resolved_host, resolved_verbose, resolved_port,
    resolved_timeout, port_error, timeout_error.
  by rewrite Hcert, Hkey, Hhost, Hverbose, Hport, Htimeout.
Qed.

(** X1. An environment that sets none of the six variables leaves every record
    as it is, whatever else it holds, and [readFromEnvironment] returns
    nil. *)
Theorem readFromEnvironment_unset (env : Env) (c : HTTProxyConfig) :
  LookupEnv env EnvTLSCert = None ->
  LookupEnv env EnvTLSKey = None ->
  LookupEnv env EnvHost = None ->
  LookupEnv env EnvVerbose = None ->
  LookupEnv env EnvPort = None ->
  LookupEnv env EnvTimeout = None ->
  readFromEnvironment env c = (c, None).
Proof.
  intros Hcert Hkey Hhost Hverbose Hport Htimeout.
  rewrite readFromEnvironment_fields.
  unfold resolved_path, resolved_host, resolved_verbose, resolved_port,
    resolved_timeout, port_error, timeout_error, Getenv.
  unfold LookupEnv in Hcert, Hkey.
  rewrite Hcert, Hkey, Hhost, Hverbose, Hport, Htimeout.
  f_equal; [|by destruct (port c =? defaultPort), (timeout c =? DefaultTimeout)].
  apply config_ext; cbn [keyFilename certFilename verbose host port timeout].
  - by destruct (String.eqb_spec (keyFilename c) "").
  - by destruct (String.eqb_spec (certFilename c) "").
  - by destruct (verbose c).
  - by destruct (String.eqb (host c) "localhost").
  - by destruct (port c =? defaultPort).
  - by destruct (port c =? defaultPort), (timeout c =? DefaultTimeout).
Qed.

(** X2. The result of [readFromEnvironment] depends on the environment through
    the six variables of the record only: two environments that agree on
    them give the same record and the same error, whatever they hold under
    other names (TESLA_HTTP_PROXY_DISABLE_TLS included). *)
Theorem readFromEnvironment_reads_six_variables (env1 env2 : Env) (c : HTTProxyConfig) :
  Forall (fun key => LookupEnv env1 key = LookupEnv env2 key)
         [EnvTLSCert; EnvTLSKey; EnvHost; EnvVerbose; EnvPort; EnvTimeout] ->
  readFromEnvironment env1 c = readFromEnvironment env2 c.
Proof.
  intros Hagree.
  apply Forall_cons_iff in Hagree as [Hcert Hagree].
  apply Forall_cons_iff in Hagree as [Hkey Hagree].
  repeat (apply Forall_cons_iff in Hagree as [? Hagree]).
  unfold LookupEnv in Hcert, Hkey.
  apply readFromEnvironment_ext; unfold Getenv; by rewrite ?Hcert, ?Hkey.
Qed.

(** X3. [readFromEnvironment] fails for no other reason than a port or timeout
    variable that is read (the field holds its default) and rejected by its
    parser: the paths, the host and the verbosity never make it fail, and
    with both the port and the timeout set away from their defaults it
    succeeds in every environment. *)
Theorem readFromEnvironment_fails_only_on_port_or_timeout (env : Env) (c : HTTProxyConfig) :
  (forall (c' : HTTProxyConfig) (e : error),
      readFromEnvironment env c = (c', Some e) ->
      (port c = defaultPort /\
       exists (v pe : string) (n : Z),
         LookupEnv env EnvPort = Some v /\ Atoi v = (n, Some pe) /\
         e = "invalid port: " +:+ v) \/
      (timeout c = DefaultTimeout /\
       exists (v te : string) (d : Z),
         LookupEnv env EnvTimeout = Some v /\ ParseDuration v = (d, Some te) /\
         e = "invalid timeout: " +:+ v)) /\
  (port c <> defaultPort -> timeout c <> DefaultTimeout ->
   snd (readFromEnvironment env c) = None).
Proof.
  split.
  - intros c' e Hrun. rewrite readFromEnvironment_fields in Hrun.
    injection Hrun as _ Herr. unfold port_error, timeout_error in Herr.
    destruct (port c =? defaultPort) eqn:Eport.
    + destruct (LookupEnv env EnvPort) as [pv|] eqn:Epv.
      * destruct (Atoi pv) as [n [pe|]] eqn:Eatoi; cbn [snd] in Herr.
        -- left. apply Z.eqb_eq in Eport. split; [done|].
           exists pv, pe, n. injection Herr as <-. done.
        -- destruct (timeout c =? DefaultTimeout) eqn:Et; [|done].
           destruct (LookupEnv env EnvTimeout) as [tv|]; [|done].
           destruct (ParseDuration tv) as [d [te|]] eqn:Ed; [|done].
           right. apply Z.eqb_eq in Et. split; [done|].
           exists tv, te, d. injection Herr as <-. done.
      * destruct (timeout c =? DefaultTimeout) eqn:Et; [|done].
        destruct (LookupEnv env EnvTimeout) as [tv|]; [|done].
        destruct (ParseDuration tv) as [d [te|]] eqn:Ed; [|done].
        right. apply Z.eqb_eq in Et. split; [done|].
        exists tv, te, d. injection Herr as <-. done.
    + destruct (timeout c =? DefaultTimeout) eqn:Et; [|done].
      destruct (LookupEnv env EnvTimeout) as [tv|]; [|done].
      destruct (ParseDuration tv) as [d [te|]] eqn:Ed; [|done].
      right. apply Z.eqb_eq in Et. split; [done|].
      exists tv, te, d. injection Herr as <-. done.
  - intros Hport Htimeout. rewrite readFromEnvironment_error.
    unfold port_error, timeout_error.
    apply Z.eqb_neq in Hport, Htimeout. by rewrite Hport, Htimeout.
Qed.

(** X4. A failing run leaves the record partly written. When the port variable
    is rejected, the paths, the host and the verbosity are already resolved
    as in a run without the port and timeout variables, the port holds the
    number [strconv.Atoi] returned with its error, and the timeout is
    untouched even if its variable is set. When the port step passes and the
    timeout variable is rejected, all other fields are resolved and the
    timeout holds the value [time.ParseDuration] returned with its error. *)
Theorem readFromEnvironment_failure_leaves_partial_record (env : Env) (c : HTTProxyConfig) :
  (forall (v pe : string) (n : Z),
      port c = defaultPort -> LookupEnv env EnvPort = Some v ->
      Atoi v = (n, Some pe) ->
      fst (readFromEnvironment env c) =
        set_port n (fst (readFromEnvironment (delete EnvPort (delete EnvTimeout env)) c))) /\
  (forall (v te : string) (d : Z),
      timeout c = DefaultTimeout -> LookupEnv env EnvTimeout = Some v ->
      ParseDuration v = (d, Some te) ->
      snd (readFromEnvironment (delete EnvTimeout env) c) = None ->
      readFromEnvironment env c =
        (set_timeout d (fst (readFromEnvironment (delete EnvTimeout env) c)),
         Some ("invalid timeout: " +:+ v))).
Proof.
  assert (Hdel : forall key, key <> EnvTimeout ->
             LookupEnv (delete EnvTimeout env) key = LookupEnv env key)
    by (intros key Hne; unfold LookupEnv; by rewrite lookup_delete_ne).
  assert (Hdel2 : forall key, key <> EnvTimeout -> key <> EnvPort ->
             LookupEnv (delete EnvPort (delete EnvTimeout env)) key = LookupEnv env key)
    by (intros key Hne1 Hne2; unfold LookupEnv; by rewrite !lookup_delete_ne).
  split.
  - intros v pe n Hdef Hset Hatoi.
    rewrite !readFromEnvironment_fields. cbn [fst].
    unfold set_port. cbn [keyFilename certFilename verbose host port timeout].
    unfold resolved_path, resolved_host, resolved_verbose, resolved_port,
      resolved_timeout, port_error, timeout_error, Getenv.
    change (delete EnvPort (delete EnvTimeout env) !! EnvTLSKey)
      with (LookupEnv (delete EnvPort (delete EnvTimeout env)) EnvTLSKey).
    change (delete EnvPort (delete EnvTimeout env) !! EnvTLSCert)
      with (LookupEnv (delete EnvPort (delete EnvTimeout env)) EnvTLSCert).
    rewrite !Hdel2 by done.
    rewrite Hdef, Hset, Hatoi, Z.eqb_refl. cbn [fst snd].
    assert (Hnoport : LookupEnv (delete EnvPort (delete EnvTimeout env)) EnvPort = None)
      by (unfold LookupEnv; apply lookup_delete_eq).
    assert (Hnotimeout : LookupEnv (delete EnvPort (delete EnvTimeout env)) EnvTimeout = None)
      by (unfold LookupEnv; rewrite lookup_delete_ne by done; apply lookup_delete_eq).
    rewrite Hnoport, Hnotimeout.
    by destruct (timeout c =? DefaultTimeout).
  - intros v te d Hdef Hset Hparse Hok.
    rewrite readFromEnvironment_error in Hok.
    rewrite !readFromEnvironment_fields. cbn [fst].
    unfold set_timeout. cbn [keyFilename certFilename verbose host port timeout].
    assert (Hnotimeout : LookupEnv (delete EnvTimeout env) EnvTimeout = None)
      by (unfold LookupEnv; apply lookup_delete_eq).
    assert (Hpe : port_error env c = port_error (delete EnvTimeout env) c)
      by (unfold port_error; by rewrite Hdel).
    assert (Hp : port_error env c = None).
    { rewrite Hpe. by destruct (port_error (delete EnvTimeout env) c). }
    unfold resolved_path, resolved_host, resolved_verbose, resolved_port,
      resolved_timeout, timeout_error, Getenv.
    change (delete EnvTimeout env !! EnvTLSKey)
      with (LookupEnv (delete EnvTimeout env) EnvTLSKey).
    change (delete EnvTimeout env !! EnvTLSCert)
      with (LookupEnv (delete EnvTimeout env) EnvTLSCert).
    rewrite !Hdel by done. rewrite Hp.
    by rewrite Hdef, Hset, Hparse, Z.eqb_refl.
Qed.

(** X5. A path variable set to the empty string counts as unset, because the
    two paths are read with [os.Getenv]; the host is read with
    [os.LookupEnv], so an empty TESLA_HTTP_PROXY_HOST replaces a default
    host by the empty string. *)
Theorem empty_path_variable_is_unset (env : Env) (c : HTTProxyConfig) :
  readFromEnvironment (<[EnvTLSCert := ""]> env) c
    = readFromEnvironment (delete EnvTLSCert env) c /\
  readFromEnvironment (<[EnvTLSKey := ""]> env) c
    = readFromEnvironment (delete EnvTLSKey env) c /\
  (host c = "localhost" ->
   host (fst (readFromEnvironment (<[EnvHost := ""]> env) c)) = "").
Proof.
  split; [|split].
  - apply readFromEnvironment_ext; unfold Getenv, LookupEnv;
      rewrite ?lookup_insert_eq, ?lookup_delete_eq;
      rewrite ?lookup_insert_ne, ?lookup_delete_ne by done; done.
  - apply readFromEnvironment_ext; unfold Getenv, LookupEnv;
      rewrite ?lookup_insert_eq, ?lookup_delete_eq;
      rewrite ?lookup_insert_ne, ?lookup_delete_ne by done; done.
  - intros Hdef. rewrite readFromEnvironment_fields. cbn [fst host].
    unfold resolved_host, LookupEnv. by rewrite Hdef, lookup_insert_eq.
Qed.

End ResolverCoverage.

(** ** More on the bootstrap sequence *)

Section BootstrapCoverage.
Context `{Imports}.

Lemma preamble_no_listener (cfg : HTTProxyConfig) :
  Forall (fun e => creates_listener e = false /\ constructs_proxy e = false) (preamble cfg).
Proof.
  unfold preamble.
  destruct (verbose cfg), (negb (String.eqb (host cfg) "localhost"));
    repeat constructor.
Qed.

Lemma checkTLSKey_no_listener (w : World) (cfg : HTTProxyConfig) (skey : ECDHPrivateKey) :
  Forall (fun e => creates_listener e = false /\ constructs_proxy e = false)
         (fst (checkTLSKey w cfg skey)).
Proof.
  unfold checkTLSKey. destruct (w_LoadPublicKey w (keyFilename cfg)) as [k|e];
    [destruct (bytes_Equal (Bytes k) (PublicBytes skey))|]; repeat constructor.
Qed.

Lemma keyCheck_no_listener (w : World) (cfg : HTTProxyConfig) (skey : ECDHPrivateKey) :
  Forall (fun e => creates_listener e = false /\ constructs_proxy e = false)
         (fst (keyCheck w cfg skey)).
Proof.
  unfold keyCheck. destruct (useTLS (w_env w));
    [apply checkTLSKey_no_listener|constructor].
Qed.

(** A key check that lets [main] go on has not seen the command key. *)
Lemma keyCheck_passed (w : World) (cfg : HTTProxyConfig) (skey : ECDHPrivateKey)
      (checked : list Event) :
  keyCheck w cfg skey = (checked, false) ->
  useTLS (w_env w) = true ->
  forall k, w_LoadPublicKey w (keyFilename cfg) = Ok k -> Bytes k <> PublicBytes skey.
Proof.
  unfold keyCheck, checkTLSKey. intros Hcheck Htls k Hload Hbytes.
  rewrite Htls, Hload in Hcheck. apply bytes_Equal_eq in Hbytes.
  rewrite Hbytes in Hcheck. discriminate.
Qed.

Lemma keyCheck_of_gate (w : World) (cfg : HTTProxyConfig) (skey : ECDHPrivateKey) :
  (useTLS (w_env w) = true -> snd (checkTLSKey w cfg skey) = false) ->
  exists checked, keyCheck w cfg skey = (checked, false).
Proof.
  unfold keyCheck. intros Hgate. destruct (useTLS (w_env w)); [|by eexists].
  specialize (Hgate eq_refl). destruct (checkTLSKey w cfg skey) as [checked b].
  cbn [snd] in Hgate. subst b. by eexists.
Qed.

Lemma chosen_listener_creates (cfg : HTTProxyConfig) (tls : bool) (p : Proxy) :
  creates_listener (chosen_listener cfg tls p) = true /\
  constructs_proxy (chosen_listener cfg tls p) = false.
Proof. unfold chosen_listener. by destruct (tls && _ && _). Qed.

Lemma filter_none {A : Type} (f g : A -> bool) (l : list A) :
  Forall (fun x => f x = false /\ g x = false) l ->
  List.filter f l = [] /\ List.filter g l = [].
Proof.
  induction 1 as [|x l [Hf Hg] _ [IHf IHg]]; [done|].
  cbn [List.filter]. by rewrite Hf, Hg.
Qed.

Lemma elem_of_none {A : Type} (f g : A -> bool) (l : list A) (x : A) :
  Forall (fun x => f x = false /\ g x = false) l -> x ∈ l -> f x = false /\ g x = false.
Proof. rewrite Forall_forall. intros Hall Hin. by apply Hall. Qed.

(** A listener event in the trace of a run fixes the whole run. *)
Lemma run_listener_inv (w : World) (t : list Event) (o : Outcome) (ev : Event) :
  Run w (t, o) -> ev ∈ t -> creates_listener ev = true ->
  exists (flags cfg : HTTProxyConfig) (skey : ECDHPrivateKey)
         (checked : list Event) (p : Proxy),
    w_NewConfig w = None /\ w_flags w = Parsed flags /\
    readFromEnvironment (w_env w) flags = (cfg, None) /\
    w_PrivateKey w = Ok skey /\
    keyCheck w cfg skey = (checked, false) /\
    w_proxyNew w skey cacheSize = Ok p /\
    ev = chosen_listener cfg (useTLS (w_env w)) p /\
    exists after,
      t = (preamble cfg ++ checked) ++
          [LogDebug "Creating proxy"; ProxyNew skey cacheSize;
           LogInfo ("Listening on " +:+ listenAddr cfg); ev] ++ after /\
      match listener_result w ev with
      | Some e => after = [LogError ("Server stopped: " +:+ e)] /\ o = Exited 0
      | None => after = [] /\ o = Serving
      end.
Proof.
  intros R Hin Hev.
  assert (Hno : forall l : list Event,
             Forall (fun e => creates_listener e = false) l -> ev ∈ l -> False).
  { intros l Hall Hl. rewrite Forall_forall in Hall. specialize (Hall _ Hl). congruence. }
  assert (Hpre : forall cfg, ev ∈ preamble cfg -> False).
  { intros cfg Hl. destruct (elem_of_none _ _ _ _ (preamble_no_listener cfg) Hl). congruence. }
  assert (Hchk : forall cfg skey checked b,
             keyCheck w cfg skey = (checked, b) -> ev ∈ checked -> False).
  { intros cfg skey checked b Hc Hl.
    pose proof (keyCheck_no_listener w cfg skey) as Hq. rewrite Hc in Hq.
    destruct (elem_of_none _ _ _ _ Hq Hl). congruence. }
  inversion R as
    [e Hnew|code Hnew Hflags|flags cfg e Hnew Hflags Hrun
    |flags cfg e Hnew Hflags Hrun Hkey
    |flags cfg skey checked Hnew Hflags Hrun Hkey Hcheck
    |flags cfg skey checked e Hnew Hflags Hrun Hkey Hcheck Hproxy
    |flags cfg skey checked p e Hnew Hflags Hrun Hkey Hcheck Hproxy Hres
    |flags cfg skey checked p Hnew Hflags Hrun Hkey Hcheck Hproxy Hres]; subst t o.
  - exfalso. eapply Hno; [|exact Hin]. repeat constructor.
  - exfalso. eapply Hno; [|exact Hin]. repeat constructor.
  - exfalso. eapply Hno; [|exact Hin]. repeat constructor.
  - exfalso. apply elem_of_app in Hin as [Hin|Hin].
    + apply (Hpre _ Hin).
    + eapply Hno; [|exact Hin]. repeat constructor.
  - exfalso. apply elem_of_app in Hin as [Hin|Hin].
    + apply (Hpre _ Hin).
    + apply (Hchk _ _ _ _ Hcheck Hin).
  - exfalso. apply elem_of_app in Hin as [Hin|Hin];
      [apply (Hpre _ Hin)|].
    apply elem_of_app in Hin as [Hin|Hin].
    + apply (Hchk _ _ _ _ Hcheck Hin).
    + eapply Hno; [|exact Hin]. repeat constructor.
  - assert (ev = chosen_listener cfg (useTLS (w_env w)) p) as ->.
    { apply elem_of_app in Hin as [Hin|Hin];
        [exfalso; apply (Hpre _ Hin)|].
      apply elem_of_app in Hin as [Hin|Hin].
      - exfalso. apply (Hchk _ _ _ _ Hcheck Hin).
      - rewrite !elem_of_cons, elem_of_nil in Hin.
        destruct Hin as [->|[->|[->|[->|[->|[]]]]]]; try discriminate. done. }
    exists flags, cfg, skey, checked, p. repeat (split; [done|]).
    exists [LogError ("Server stopped: " +:+ e)]. rewrite Hres.
    split; [by rewrite <- app_assoc|done].
  - assert (ev = chosen_listener cfg (useTLS (w_env w)) p) as ->.
    { apply elem_of_app in Hin as [Hin|Hin];
        [exfalso; apply (Hpre _ Hin)|].
      apply elem_of_app in Hin as [Hin|Hin].
      - exfalso. apply (Hchk _ _ _ _ Hcheck Hin).
      - rewrite !elem_of_cons, elem_of_nil in Hin.
        destruct Hin as [->|[->|[->|[->|[]]]]]; try discriminate. done. }
    exists flags, cfg, skey, checked, p. repeat (split; [done|]).
    exists []. rewrite Hres. split; [by rewrite <- app_assoc|done].
Qed.

Lemma main_listener_inv (w : World) (ev : Event) :
  ev ∈ fst (main w) -> creates_listener ev = true ->
  exists (flags cfg : HTTProxyConfig) (skey : ECDHPrivateKey)
         (checked : list Event) (p : Proxy),
    w_NewConfig w = None /\ w_flags w = Parsed flags /\
    readFromEnvironment (w_env w) flags = (cfg, None) /\
    w_PrivateKey w = Ok skey /\
    keyCheck w cfg skey = (checked, false) /\
    w_proxyNew w skey cacheSize = Ok p /\
    ev = chosen_listener cfg (useTLS (w_env w)) p /\
    exists after,
      fst (main w) = (preamble cfg ++ checked) ++
          [LogDebug "Creating proxy"; ProxyNew skey cacheSize;
           LogInfo ("Listening on " +:+ listenAddr cfg); ev] ++ after /\
      match listener_result w ev with
      | Some e => after = [LogError ("Server stopped: " +:+ e)] /\ snd (main w) = Exited 0
      | None => after = [] /\ snd (main w) = Serving
      end.
Proof.
  pose proof (main_run w) as R. destruct (main w) as [t o]. cbn [fst snd].
  by apply run_listener_inv.
Qed.

(** X6. When a listener returns, [main] logs "Server stopped" with the
    listener's error as its last event and the process ends with status 0:
    a failure to bind or serve is not reported through the exit status.
    While the listener does not return, its call is the last event. *)
Theorem listener_return_exits_zero (w : World) (ev : Event) :
  ev ∈ fst (main w) -> creates_listener ev = true ->
  match listener_result w ev with
  | Some e =>
      snd (main w) = Exited 0 /\
      exists before, fst (main w) = before ++ [ev; LogError ("Server stopped: " +:+ e)]
  | None =>
      snd (main w) = Serving /\ exists before, fst (main w) = before ++ [ev]
  end.
Proof.
  intros Hin Hev.
  destruct (main_listener_inv w ev Hin Hev)
    as (flags & cfg & skey & checked & p & _ & _ & _ & _ & _ & _ & _ & after & Ht & Hres).
  rewrite Ht. destruct (listener_result w ev) as [e|]; destruct Hres as [-> ->].
  - split; [done|].
    exists ((preamble cfg ++ checked) ++
            [LogDebug "Creating proxy"; ProxyNew skey cacheSize;
             LogInfo ("Listening on " +:+ listenAddr cfg)]).
    by rewrite <- (app_assoc (preamble cfg ++ checked)).
  - split; [done|].
    exists ((preamble cfg ++ checked) ++
            [LogDebug "Creating proxy"; ProxyNew skey cacheSize;
             LogInfo ("Listening on " +:+ listenAddr cfg)]).
    by rewrite <- (app_assoc (preamble cfg ++ checked)).
Qed.

(** X7. A listener is started only after everything before it has succeeded,
    and only once: the run has resolved its configuration, obtained the
    command-authentication key and built the handler from that key with a
    session cache of 10000; "Creating proxy", the call of [proxy.New] and
    "Listening on" with the listener's own address come immediately before
    the listener; the handler it is given carries the resolved timeout; and
    the trace holds no other listener and no other [proxy.New]. *)
Theorem listener_follows_proxy (w : World) (ev : Event) :
  ev ∈ fst (main w) -> creates_listener ev = true ->
  exists (flags cfg : HTTProxyConfig) (skey : ECDHPrivateKey) (p : Proxy)
         (before after : list Event),
    w_flags w = Parsed flags /\
    readFromEnvironment (w_env w) flags = (cfg, None) /\
    w_PrivateKey w = Ok skey /\
    w_proxyNew w skey cacheSize = Ok p /\
    fst (main w) =
      before ++
      [LogDebug "Creating proxy"; ProxyNew skey cacheSize;
       LogInfo ("Listening on " +:+ host cfg +:+ ":" +:+ fmt_d (port cfg)); ev]
      ++ after /\
    (ev = ListenAndServeTLS (host cfg +:+ ":" +:+ fmt_d (port cfg))
                            (certFilename cfg) (keyFilename cfg)
                            (set_Timeout (timeout cfg) p) \/
     ev = ListenAndServe (host cfg +:+ ":" +:+ fmt_d (port cfg))
                         (set_Timeout (timeout cfg) p)) /\
    List.filter creates_listener (fst (main w)) = [ev] /\
    List.filter constructs_proxy (fst (main w)) = [ProxyNew skey cacheSize].
Proof.
  intros Hin Hev.
  destruct (main_listener_inv w ev Hin Hev)
    as (flags & cfg & skey & checked & p & _ & Hflags & Hrun & Hkey & Hcheck
        & Hproxy & Hchosen & after & Ht & Hres).
  exists flags, cfg, skey, p, (preamble cfg ++ checked), after.
  do 4 (split; [done|]). split; [exact Ht|]. split.
  { rewrite Hchosen. unfold chosen_listener, listenAddr.
    destruct (useTLS (w_env w) && _ && _); [by left|by right]. }
  pose proof (keyCheck_no_listener w cfg skey) as Hq. rewrite Hcheck in Hq.
  cbn [fst] in Hq.
  destruct (filter_none _ _ _ (preamble_no_listener cfg)) as [Hp1 Hp2].
  destruct (filter_none _ _ _ Hq) as [Hc1 Hc2].
  assert (Hev2 : constructs_proxy ev = false)
    by (rewrite Hchosen; apply chosen_listener_creates).
  rewrite Ht, !List.filter_app, Hp1, Hp2, Hc1, Hc2.
  cbn [List.filter creates_listener constructs_proxy app]. rewrite Hev, Hev2.
  destruct (listener_result w ev); destruct Hres as [-> _]; done.
Qed.

(** X8. [http.ListenAndServeTLS] is never called with a key file whose public
    key is the command-authentication key: whenever the call is in the
    trace, TLS is enabled, both paths it is given are non-empty, and the key
    file, if it loads as a public key at all, differs from the public bytes
    of the command-authentication key. *)
Theorem tls_never_served_with_command_key (w : World) (addr certFile keyFile : string)
        (handler : Proxy) :
  ListenAndServeTLS addr certFile keyFile handler ∈ fst (main w) ->
  useTLS (w_env w) = true /\ certFile <> "" /\ keyFile <> "" /\
  forall (skey : ECDHPrivateKey) (k : PublicKey),
    w_PrivateKey w = Ok skey -> w_LoadPublicKey w keyFile = Ok k ->
    Bytes k <> PublicBytes skey.
Proof.
  intros Hin.
  destruct (main_listener_inv w _ Hin eq_refl)
    as (flags & cfg & skey & checked & p & _ & _ & _ & Hkey & Hcheck
        & _ & Hchosen & _).
  unfold chosen_listener in Hchosen.
  destruct (useTLS (w_env w)) eqn:Htls; [|discriminate].
  destruct (String.eqb_spec (certFilename cfg) "") as [|Hcert]; [discriminate|].
  destruct (String.eqb_spec (keyFilename cfg) "") as [|Hkeyfile]; [discriminate|].
  injection Hchosen as _ -> -> _.
  do 3 (split; [done|]).
  intros skey' k Hkey' Hload. rewrite Hkey in Hkey'. injection Hkey' as <-.
  by apply (keyCheck_passed w cfg skey checked).
Qed.

(** X9. Once the command line is parsed, the process ends with status 1 only
    after one of four failures ([cli.NewConfig], [readFromEnvironment],
    [config.PrivateKey] or [proxy.New]); the last thing it did was to write
    a line to standard error, and it started no listener. *)
Theorem exit_one_means_failure (w : World) (flags : HTTProxyConfig) :
  w_flags w = Parsed flags ->
  snd (main w) = Exited 1 ->
  (exists before text, fst (main w) = before ++ [Stderr text]) /\
  List.filter creates_listener (fst (main w)) = [] /\
  (w_NewConfig w <> None \/
   snd (readFromEnvironment (w_env w) flags) <> None \/
   (exists e, w_PrivateKey w = Err e) \/
   (exists skey e, w_PrivateKey w = Ok skey /\ w_proxyNew w skey cacheSize = Err e)).
Proof.
  intros Hflags Hexit. pose proof (main_run w) as R.
  destruct (main w) as [t o]. cbn [fst snd] in *. subst o.
  inversion R as
    [e Hnew|code Hnew Hflags'|flags' cfg e Hnew Hflags' Hrun
    |flags' cfg e Hnew Hflags' Hrun Hkey
    | |flags' cfg skey checked e Hnew Hflags' Hrun Hkey Hcheck Hproxy
    | | ]; subst.
  - split; [by eexists [], _|]. split; [done|]. left. congruence.
  - congruence.
  - split; [by eexists [], _|]. split; [done|]. right. left.
    rewrite Hflags in Hflags'. injection Hflags' as <-. by rewrite Hrun.
  - split; [by eexists _, _|]. split; [|eauto].
    rewrite List.filter_app.
    by destruct (filter_none _ _ _ (preamble_no_listener cfg)) as [-> _].
  - split.
    { exists (preamble cfg ++ checked ++
              [LogDebug "Creating proxy"; ProxyNew skey cacheSize;
               LogError ("Error initializing proxy service: " +:+ e)]),
             ("Error: " +:+ e +:+ nl).
      by rewrite <- !app_assoc. }
    split; [|eauto 10].
    pose proof (keyCheck_no_listener w cfg skey) as Hq. rewrite Hcheck in Hq.
    cbn [fst] in Hq. rewrite !List.filter_app.
    destruct (filter_none _ _ _ (preamble_no_listener cfg)) as [-> _].
    by destruct (filter_none _ _ _ Hq) as [-> _].
Qed.

(** X10. When [config.PrivateKey] fails, [main] has set the log level and
    printed the exposure warning if they apply, and then only prints
    "Error: " with the error through its deferred function and exits with
    status 1: the TLS key file is not looked at, and neither [proxy.New]
    nor a listener is called. *)
Theorem privateKey_failure_exits_one (w : World) (flags cfg : HTTProxyConfig) (e : error) :
  w_NewConfig w = None ->
  w_flags w = Parsed flags ->
  readFromEnvironment (w_env w) flags = (cfg, None) ->
  w_PrivateKey w = Err e ->
  main w =
    ((if verbose cfg then [SetLevelDebug] else []) ++
     (if negb (String.eqb (host cfg) "localhost")
      then [Stderr (nonLocalhostWarning +:+ nl)] else []) ++
     [Stderr ("Error: " +:+ e +:+ nl)],
     Exited 1) /\
  forall f, main (with_LoadPublicKey f w) = main w.
Proof.
  intros Hnew Hflags Hrun Hkey. split.
  - unfold main, main_body. rewrite Hnew, Hflags, Hrun, Hkey.
    cbn zeta iota. by rewrite <- app_assoc.
  - intros f. unfold main, main_body.
    cbn [with_LoadPublicKey w_NewConfig w_flags w_env w_PrivateKey].
    by rewrite Hnew, Hflags, Hrun, Hkey.
Qed.

(** X11. When [proxy.New] fails, [main] logs "Error initializing proxy service"
    with the error, prints "Error: " with the same error through its
    deferred function and exits with status 1 without starting a
    listener. *)
Theorem proxyNew_failure_exits_one (w : World) (flags cfg : HTTProxyConfig)
        (skey : ECDHPrivateKey) (e : error) :
  w_NewConfig w = None ->
  w_flags w = Parsed flags ->
  readFromEnvironment (w_env w) flags = (cfg, None) ->
  w_PrivateKey w = Ok skey ->
  (useTLS (w_env w) = true -> snd (checkTLSKey w cfg skey) = false) ->
  w_proxyNew w skey cacheSize = Err e ->
  (exists before,
      fst (main w) =
        before ++
        [LogDebug "Creating proxy"; ProxyNew skey cacheSize;
         LogError ("Error initializing proxy service: " +:+ e);
         Stderr ("Error: " +:+ e +:+ nl)]) /\
  snd (main w) = Exited 1 /\
  List.filter creates_listener (fst (main w)) = [].
Proof.
  intros Hnew Hflags Hrun Hkey Hgate Hproxy.
  destruct (keyCheck_of_gate w cfg skey Hgate) as [checked Hcheck].
  rewrite (main_eq w _ (Run_ProxyNew w flags cfg skey checked e
                          Hnew Hflags Hrun Hkey Hcheck Hproxy)).
  cbn [fst snd]. split; [|split; [done|]].
  - exists (preamble cfg ++ checked). by rewrite <- app_assoc.
  - pose proof (keyCheck_no_listener w cfg skey) as Hq. rewrite Hcheck in Hq.
    cbn [fst] in Hq. rewrite !List.filter_app.
    destruct (filter_none _ _ _ (preamble_no_listener cfg)) as [-> _].
    by destruct (filter_none _ _ _ Hq) as [-> _].
Qed.

(** X12. With TLS disabled through the environment the TLS key file plays no
    part: whatever [protocol.LoadPublicKey] would return, the command key
    itself included, the run is the same. *)
Theorem disabled_tls_skips_key_check (w : World) (f : string -> Result PublicKey) :
  useTLS (w_env w) = false ->
  main (with_LoadPublicKey f w) = main w.
Proof.
  intros Htls. unfold main, main_body, serve.
  cbn [with_LoadPublicKey w_NewConfig w_flags w_env w_PrivateKey w_proxyNew
       w_ListenAndServeTLS w_ListenAndServe].
  by rewrite Htls.
Qed.

(** The flag [-verbose] reaches no field but [verbose]. *)
Lemma readFromEnvironment_set_verbose (env : Env) (flags : HTTProxyConfig) (b : bool) :
  readFromEnvironment env (set_verbose b flags) =
    (set_verbose (resolved_verbose env (set_verbose b flags))
                 (fst (readFromEnvironment env flags)),
     snd (readFromEnvironment env flags)).
Proof.
  rewrite !readFromEnvironment_fields.
  unfold resolved_host, resolved_port, resolved_timeout, port_error, timeout_error,
    set_verbose.
  by cbn [fst snd keyFilename certFilename verbose host port timeout].
Qed.

(** X13. The verbosity flag changes nothing but the call that sets the log
    level: a run started with the flag given another value makes the same
    calls in the same order, that one apart, and ends the same way. *)
Theorem verbose_only_sets_level (w : World) (flags : HTTProxyConfig) (b : bool) :
  w_flags w = Parsed flags ->
  let w' := with_flags (Parsed (set_verbose b flags)) w in
  List.filter (fun e => negb (is_SetLevelDebug e)) (fst (main w')) =
    List.filter (fun e => negb (is_SetLevelDebug e)) (fst (main w)) /\
  snd (main w') = snd (main w).
Proof.
  intros Hflags w'. subst w'. unfold main, main_body.
  cbn [with_flags w_NewConfig w_flags w_env w_PrivateKey]. rewrite Hflags.
  destruct (w_NewConfig w) as [e0|]; [done|].
  rewrite readFromEnvironment_set_verbose.
  destruct (readFromEnvironment (w_env w) flags) as [cfg [e1|]]; cbn [fst snd]; [done|].
  generalize (resolved_verbose (w_env w) (set_verbose b flags)). intros v.
  unfold checkTLSKey, serve.
  cbn [set_verbose with_flags keyFilename certFilename verbose host port timeout
       w_LoadPublicKey w_proxyNew w_ListenAndServeTLS w_ListenAndServe].
  destruct v, (verbose cfg), (negb (String.eqb (host cfg) "localhost")),
    (w_PrivateKey w) as [skey|e2]; try done;
    destruct (useTLS (w_env w)); cbn [andb];
    try (destruct (w_LoadPublicKey w (keyFilename cfg)) as [k|e3];
         [destruct (bytes_Equal (Bytes k) (PublicBytes skey)); [done|]|]);
    destruct (w_proxyNew w skey cacheSize) as [p|e4]; try done;
    cbn zeta;
    try (destruct (negb (String.eqb (certFilename cfg) "") &&
                   negb (String.eqb (keyFilename cfg) ""));
         [destruct (w_ListenAndServeTLS w _ _ _ _)|]);
    try destruct (w_ListenAndServe w _ _); done.
Qed.

(** What follows the log level and the exposure warning in the trace of a
    resolved run holds neither of the two. *)
Lemma main_after_preamble (w : World) (flags cfg : HTTProxyConfig) :
  w_NewConfig w = None ->
  w_flags w = Parsed flags ->
  readFromEnvironment (w_env w) flags = (cfg, None) ->
  exists rest,
    fst (main w) = preamble cfg ++ rest /\
    List.filter is_SetLevelDebug rest = [] /\
    rest <> [].
Proof.
  intros Hnew Hflags Hrun. pose proof (main_run w) as R.
  destruct (main w) as [t o]. cbn [fst].
  assert (Hchk : forall skey checked b,
             keyCheck w cfg skey = (checked, b) ->
             List.filter is_SetLevelDebug checked = []).
  { intros skey checked b. unfold keyCheck, checkTLSKey.
    destruct (useTLS (w_env w)); [|by intros [= <- _]].
    destruct (w_LoadPublicKey w (keyFilename cfg)) as [k|e];
      [destruct (bytes_Equal (Bytes k) (PublicBytes skey))|]; by intros [= <- _]. }
  assert (Hlistener : forall tls p, is_SetLevelDebug (chosen_listener cfg tls p) = false)
    by (intros tls p; unfold chosen_listener; by destruct (tls && _ && _)).
  inversion R as
    [e Hnew'|code Hnew' Hflags'|flags' cfg' e Hnew' Hflags' Hrun'
    |flags' cfg' e Hnew' Hflags' Hrun' Hkey
    |flags' cfg' skey checked Hnew' Hflags' Hrun' Hkey Hcheck
    |flags' cfg' skey checked e Hnew' Hflags' Hrun' Hkey Hcheck Hproxy
    |flags' cfg' skey checked p e Hnew' Hflags' Hrun' Hkey Hcheck Hproxy Hres
    |flags' cfg' skey checked p Hnew' Hflags' Hrun' Hkey Hcheck Hproxy Hres];
    subst t o; try congruence;
    (assert (cfg' = cfg) as -> by congruence).
  - eexists. split; [done|]. split; [done|discriminate].
  - exists checked. split; [done|]. split; [by apply (Hchk skey checked true)|].
    intros ->. unfold keyCheck, checkTLSKey in Hcheck.
    destruct (useTLS (w_env w)); [|discriminate].
    destruct (w_LoadPublicKey w (keyFilename cfg)) as [k|e];
      [destruct (bytes_Equal (Bytes k) (PublicBytes skey))|]; discriminate.
  - eexists. split; [done|].
    rewrite List.filter_app, (Hchk skey checked false Hcheck).
    split; [done|]. by destruct checked.
  - eexists. split; [done|].
    rewrite List.filter_app, (Hchk skey checked false Hcheck).
    cbn [List.filter is_SetLevelDebug app]. rewrite Hlistener.
    split; [done|]. by destruct checked.
  - eexists. split; [done|].
    rewrite List.filter_app, (Hchk skey checked false Hcheck).
    cbn [List.filter is_SetLevelDebug app]. rewrite Hlistener.
    split; [done|]. by destruct checked.
Qed.

(** X14. In a run that has resolved its configuration, [log.SetLevel] is called
    exactly when the resolved verbosity is true, once, and before every
    other call: before the exposure warning and before the first debug
    line of the key check. *)
Theorem log_level_set_first (w : World) (flags cfg : HTTProxyConfig) :
  w_NewConfig w = None ->
  w_flags w = Parsed flags ->
  readFromEnvironment (w_env w) flags = (cfg, None) ->
  (verbose cfg = true ->
   exists rest, fst (main w) = SetLevelDebug :: rest /\
                List.filter is_SetLevelDebug rest = []) /\
  (verbose cfg = false -> List.filter is_SetLevelDebug (fst (main w)) = []).
Proof.
  intros Hnew Hflags Hrun.
  destruct (main_after_preamble w flags cfg Hnew Hflags Hrun) as (rest & -> & Hrest & _).
  unfold preamble. split; intros ->.
  - eexists. split; [reflexivity|].
    rewrite List.filter_app, Hrest.
    by destruct (negb (String.eqb (host cfg) "localhost")).
  - rewrite !List.filter_app, Hrest.
    by destruct (negb (String.eqb (host cfg) "localhost")).
Qed.

(** X15. Once the command line is parsed the process ends in one of three
    ways. Status 1 apart, it exits with status 0, and then either the reused
    key was detected (the trace ends with the remediation text) or a
    listener has returned (the trace ends with "Server stopped"); or it
    keeps serving, and then the call of a listener that has not returned is
    its last event. *)
Theorem ending_after_flags (w : World) (flags : HTTProxyConfig) :
  w_flags w = Parsed flags ->
  snd (main w) = Exited 1 \/
  (snd (main w) = Exited 0 /\
   ((exists before,
        fst (main w) =
          before ++
          [Stderr ("It is unsafe to use the same private key for TLS and command authentication." +:+ nl);
           Stderr nl;
           Stderr ("Generate a new TLS key for this server." +:+ nl)]) \/
    (exists before ev e,
        creates_listener ev = true /\ listener_result w ev = Some e /\
        fst (main w) = before ++ [ev; LogError ("Server stopped: " +:+ e)]))) \/
  (snd (main w) = Serving /\
   exists before ev,
     creates_listener ev = true /\ listener_result w ev = None /\
     fst (main w) = before ++ [ev]).
Proof.
  intros Hflags. pose proof (main_run w) as R.
  destruct (main w) as [t o]. cbn [fst snd].
  inversion R as
    [e Hnew|code Hnew Hflags'|flags' cfg e Hnew Hflags' Hrun
    |flags' cfg e Hnew Hflags' Hrun Hkey
    |flags' cfg skey checked Hnew Hflags' Hrun Hkey Hcheck
    |flags' cfg skey checked e Hnew Hflags' Hrun Hkey Hcheck Hproxy
    |flags' cfg skey checked p e Hnew Hflags' Hrun Hkey Hcheck Hproxy Hres
    |flags' cfg skey checked p Hnew Hflags' Hrun Hkey Hcheck Hproxy Hres];
    subst t o; try (by left); try congruence.
  - right. left. split; [done|]. left. exists (preamble cfg).
    unfold keyCheck, checkTLSKey in Hcheck.
    destruct (useTLS (w_env w)); [|discriminate].
    destruct (w_LoadPublicKey w (keyFilename cfg)) as [k|e];
      [destruct (bytes_Equal (Bytes k) (PublicBytes skey))|]; try discriminate.
    by injection Hcheck as <-.
  - right. left. split; [done|]. right.
    exists ((preamble cfg ++ checked) ++
            [LogDebug "Creating proxy"; ProxyNew skey cacheSize;
             LogInfo ("Listening on " +:+ listenAddr cfg)]),
           (chosen_listener cfg (useTLS (w_env w)) p), e.
    split; [apply chosen_listener_creates|]. split; [done|].
    by rewrite <- !app_assoc.
  - right. right. split; [done|].
    exists ((preamble cfg ++ checked) ++
            [LogDebug "Creating proxy"; ProxyNew skey cacheSize;
             LogInfo ("Listening on " +:+ listenAddr cfg)]),
           (chosen_listener cfg (useTLS (w_env w)) p).
    split; [apply chosen_listener_creates|]. split; [done|].
    by rewrite <- !app_assoc.
Qed.

End BootstrapCoverage.

(** ** The further statements on the sample runs *)

Section CoverageRuns.
Import Sample.
Local Existing Instance imports.

Lemma readFromEnvironment_unset_witness :
  LookupEnv otherEnv EnvTLSCert = None /\
  LookupEnv otherEnv EnvTLSKey = None /\
  LookupEnv otherEnv EnvHost = None /\
  LookupEnv otherEnv EnvVerbose = None /\
  LookupEnv otherEnv EnvPort = None /\
  LookupEnv otherEnv EnvTimeout = None /\
  readFromEnvironment otherEnv fullConfig = (fullConfig, None).
Proof.
  do 6 (split; [reflexivity|]).
  apply (readFromEnvironment_unset otherEnv fullConfig); reflexivity.
Defined.

Lemma readFromEnvironment_reads_six_variables_witness :
  Forall (fun key => LookupEnv (<[EnvDisableTLS := "true"]> fullEnv) key = LookupEnv fullEnv key)
         [EnvTLSCert; EnvTLSKey; EnvHost; EnvVerbose; EnvPort; EnvTimeout] /\
  readFromEnvironment (<[EnvDisableTLS := "true"]> fullEnv) keyFlag
    = readFromEnvironment fullEnv keyFlag.
Proof.
  assert (Hagree : Forall (fun key => LookupEnv (<[EnvDisableTLS := "true"]> fullEnv) key
                                      = LookupEnv fullEnv key)
                     [EnvTLSCert; EnvTLSKey; EnvHost; EnvVerbose; EnvPort; EnvTimeout])
    by (repeat constructor).
  split; [exact Hagree|].
  exact (readFromEnvironment_reads_six_variables _ _ keyFlag Hagree).
Defined.

Lemma readFromEnvironment_fails_only_on_port_or_timeout_witness :
  readFromEnvironment (<[EnvTimeout := "soon"]> ∅) defaults
    = (set_timeout 0 defaults, Some "invalid timeout: soon") /\
  ((port defaults = defaultPort /\
    exists (v pe : string) (n : Z),
      LookupEnv (<[EnvTimeout := "soon"]> ∅) EnvPort = Some v /\ Atoi v = (n, Some pe) /\
      "invalid timeout: soon" = "invalid port: " +:+ v) \/
   (timeout defaults = DefaultTimeout /\
    exists (v te : string) (d : Z),
      LookupEnv (<[EnvTimeout := "soon"]> ∅) EnvTimeout = Some v /\
      ParseDuration v = (d, Some te) /\
      "invalid timeout: soon" = "invalid timeout: " +:+ v)) /\
  snd (readFromEnvironment badPortEnv (set_timeout 1 (set_port 9090 defaults))) = None.
Proof.
  split; [reflexivity|]. split.
  - destruct (readFromEnvironment_fails_only_on_port_or_timeout
                (<[EnvTimeout := "soon"]> ∅) defaults) as [Honly _].
    apply (Honly (set_timeout 0 defaults)). reflexivity.
  - destruct (readFromEnvironment_fails_only_on_port_or_timeout
                badPortEnv (set_timeout 1 (set_port 9090 defaults))) as [_ Hflags].
    apply Hflags; discriminate.
Defined.

Lemma readFromEnvironment_failure_leaves_partial_record_witness :
  port defaults = defaultPort /\
  LookupEnv badPortEnv EnvPort = Some "abc" /\
  fst (Atoi "abc") = 0 /\
  fst (readFromEnvironment badPortEnv defaults) =
    set_port 0 (fst (readFromEnvironment
                       (delete EnvPort (delete EnvTimeout badPortEnv)) defaults)) /\
  readFromEnvironment (<[EnvHost := "0.0.0.0"]> (<[EnvTimeout := "soon"]> ∅)) defaults =
    (set_timeout 0
       (fst (readFromEnvironment
               (delete EnvTimeout (<[EnvHost := "0.0.0.0"]> (<[EnvTimeout := "soon"]> ∅)))
               defaults)),
     Some "invalid timeout: soon").
Proof.
  do 3 (split; [reflexivity|]). split.
  - destruct (readFromEnvironment_failure_leaves_partial_record badPortEnv defaults)
      as [Hport _].
    eapply (Hport "abc"); reflexivity.
  - destruct (readFromEnvironment_failure_leaves_partial_record
                (<[EnvHost := "0.0.0.0"]> (<[EnvTimeout := "soon"]> ∅)) defaults)
      as [_ Htimeout].
    eapply (Htimeout "soon"); reflexivity.
Defined.

Lemma empty_path_variable_is_unset_witness :
  readFromEnvironment (<[EnvTLSCert := ""]> tlsEnv) defaults
    = (set_keyFilename "server.key" defaults, None) /\
  host defaults = "localhost" /\
  host (fst (readFromEnvironment (<[EnvHost := ""]> tlsEnv) defaults)) = "".
Proof.
  destruct (empty_path_variable_is_unset tlsEnv defaults) as (Hcert & _ & Hhost).
  split; [|split; [reflexivity|]].
  - rewrite Hcert. reflexivity.
  - apply Hhost. reflexivity.
Defined.

Lemma listener_return_exits_zero_witness :
  ListenAndServe "localhost:8080" newProxy ∈ fst (main portInUseWorld) /\
  snd (main portInUseWorld) = Exited 0 /\
  exists before,
    fst (main portInUseWorld) =
      before ++
      [ListenAndServe "localhost:8080" newProxy;
       LogError "Server stopped: listen tcp 127.0.0.1:8080: bind: address already in use"].
Proof.
  assert (Hin : ListenAndServe "localhost:8080" newProxy ∈ fst (main portInUseWorld))
    by (vm_compute; repeat constructor).
  split; [exact Hin|].
  exact (listener_return_exits_zero portInUseWorld _ Hin eq_refl).
Defined.

Lemma listener_follows_proxy_witness :
  ListenAndServeTLS "localhost:8080" "server.crt" "server.key" newProxy
    ∈ fst (main distinctWorld) /\
  exists (flags cfg : HTTProxyConfig) (skey : ECDHPrivateKey) (p : Proxy)
         (before after : list Event),
    w_flags distinctWorld = Parsed flags /\
    readFromEnvironment (w_env distinctWorld) flags = (cfg, None) /\
    w_PrivateKey distinctWorld = Ok skey /\
    w_proxyNew distinctWorld skey cacheSize = Ok p /\
    fst (main distinctWorld) =
      before ++
      [LogDebug "Creating proxy"; ProxyNew skey cacheSize;
       LogInfo ("Listening on " +:+ host cfg +:+ ":" +:+ fmt_d (port cfg));
       ListenAndServeTLS "localhost:8080" "server.crt" "server.key" newProxy]
      ++ after.
Proof.
  assert (Hin : ListenAndServeTLS "localhost:8080" "server.crt" "server.key" newProxy
                ∈ fst (main distinctWorld))
    by (vm_compute; repeat constructor).
  split; [exact Hin|].
  destruct (listener_follows_proxy distinctWorld _ Hin eq_refl)
    as (flags & cfg & skey & p & before & after & H1 & H2 & H3 & H4 & H5 & _).
  exists flags, cfg, skey, p, before, after.
  exact (conj H1 (conj H2 (conj H3 (conj H4 H5)))).
Defined.

Lemma tls_never_served_with_command_key_witness :
  ListenAndServeTLS "localhost:8080" "server.crt" "server.key" newProxy
    ∈ fst (main distinctWorld) /\
  w_PrivateKey distinctWorld = Ok commandKey /\
  w_LoadPublicKey distinctWorld "server.key" = Ok otherKey /\
  Bytes otherKey <> PublicBytes commandKey.
Proof.
  assert (Hin : ListenAndServeTLS "localhost:8080" "server.crt" "server.key" newProxy
                ∈ fst (main distinctWorld))
    by (vm_compute; repeat constructor).
  split; [exact Hin|]. do 2 (split; [reflexivity|]).
  destruct (tls_never_served_with_command_key distinctWorld _ _ _ _ Hin)
    as (_ & _ & _ & Hdiffers).
  apply (Hdiffers commandKey otherKey); reflexivity.
Defined.

Lemma exit_one_means_failure_witness :
  w_flags noProxyWorld = Parsed defaults /\
  snd (main noProxyWorld) = Exited 1 /\
  List.filter creates_listener (fst (main noProxyWorld)) = [] /\
  exists before text, fst (main noProxyWorld) = before ++ [Stderr text].
Proof.
  do 2 (split; [reflexivity|]).
  destruct (exit_one_means_failure noProxyWorld defaults
              ltac:(reflexivity) ltac:(reflexivity))
    as (Hlast & Hnone & _).
  split; [exact Hnone|exact Hlast].
Defined.

Lemma privateKey_failure_exits_one_witness :
  w_NewConfig noKeyWorld = None /\
  w_flags noKeyWorld = Parsed defaults /\
  readFromEnvironment (w_env noKeyWorld) defaults = (set_host "0.0.0.0" defaults, None) /\
  w_PrivateKey noKeyWorld = Err "no private key specified" /\
  main noKeyWorld =
    ([Stderr (nonLocalhostWarning +:+ nl);
      Stderr ("Error: no private key specified" +:+ nl)], Exited 1).
Proof.
  do 4 (split; [reflexivity|]).
  destruct (privateKey_failure_exits_one noKeyWorld defaults (set_host "0.0.0.0" defaults)
              "no private key specified"
              ltac:(reflexivity) ltac:(reflexivity) ltac:(reflexivity) ltac:(reflexivity))
    as [Hmain _].
  exact Hmain.
Defined.

Lemma proxyNew_failure_exits_one_witness :
  w_NewConfig noProxyWorld = None /\
  w_flags noProxyWorld = Parsed defaults /\
  readFromEnvironment (w_env noProxyWorld) defaults = (defaults, None) /\
  w_PrivateKey noProxyWorld = Ok commandKey /\
  (useTLS (w_env noProxyWorld) = true ->
   snd (checkTLSKey noProxyWorld defaults commandKey) = false) /\
  w_proxyNew noProxyWorld commandKey cacheSize = Err "cache size must be positive" /\
  snd (main noProxyWorld) = Exited 1 /\
  List.filter creates_listener (fst (main noProxyWorld)) = [].
Proof.
  do 4 (split; [reflexivity|]). split; [intros _; reflexivity|].
  split; [reflexivity|].
  destruct (proxyNew_failure_exits_one noProxyWorld defaults defaults commandKey
              "cache size must be positive"
              ltac:(reflexivity) ltac:(reflexivity) ltac:(reflexivity) ltac:(reflexivity)
              ltac:(intros _; reflexivity) ltac:(reflexivity))
    as (_ & Hexit & Hnone).
  split; [exact Hexit|exact Hnone].
Defined.

Lemma disabled_tls_skips_key_check_witness :
  useTLS (w_env (world noTLSEnv defaults)) = false /\
  main (with_LoadPublicKey (fun _ => Ok sameKey) (world noTLSEnv defaults))
    = main (world noTLSEnv defaults).
Proof.
  split; [reflexivity|].
  apply (disabled_tls_skips_key_check (world noTLSEnv defaults)). reflexivity.
Defined.

Lemma verbose_only_sets_level_witness :
  w_flags (world tlsEnv defaults) = Parsed defaults /\
  List.filter (fun e => negb (is_SetLevelDebug e))
              (fst (main (with_flags (Parsed (set_verbose true defaults))
                                     (world tlsEnv defaults)))) =
    List.filter (fun e => negb (is_SetLevelDebug e)) (fst (main (world tlsEnv defaults))) /\
  snd (main (with_flags (Parsed (set_verbose true defaults)) (world tlsEnv defaults)))
    = snd (main (world tlsEnv defaults)).
Proof.
  split; [reflexivity|].
  exact (verbose_only_sets_level (world tlsEnv defaults) defaults true ltac:(reflexivity)).
Defined.

Lemma log_level_set_first_witness :
  w_NewConfig (world (<[EnvVerbose := "1"]> ∅) defaults) = None /\
  w_flags (world (<[EnvVerbose := "1"]> ∅) defaults) = Parsed defaults /\
  readFromEnvironment (<[EnvVerbose := "1"]> ∅) defaults = (set_verbose true defaults, None) /\
  verbose (set_verbose true defaults) = true /\
  exists rest,
    fst (main (world (<[EnvVerbose := "1"]> ∅) defaults)) = SetLevelDebug :: rest /\
    List.filter is_SetLevelDebug rest = [].
Proof.
  do 4 (split; [reflexivity|]).
  destruct (log_level_set_first (world (<[EnvVerbose := "1"]> ∅) defaults) defaults
              (set_verbose true defaults)
              ltac:(reflexivity) ltac:(reflexivity) ltac:(reflexivity))
    as [Hfirst _].
  apply Hfirst. reflexivity.
Defined.

Lemma ending_after_flags_witness :
  w_flags portInUseWorld = Parsed defaults /\
  (snd (main portInUseWorld) = Exited 1 \/
   (snd (main portInUseWorld) = Exited 0 /\
    ((exists before,
         fst (main portInUseWorld) =
           before ++
           [Stderr ("It is unsafe to use the same private key for TLS and command authentication." +:+ nl);
            Stderr nl;
            Stderr ("Generate a new TLS key for this server." +:+ nl)]) \/
     (exists before ev e,
         creates_listener ev = true /\ listener_result portInUseWorld ev = Some e /\
         fst (main portInUseWorld) = before ++ [ev; LogError ("Server stopped: " +:+ e)]))) \/
   (snd (main portInUseWorld) = Serving /\
    exists before ev,
      creates_listener ev = true /\ listener_result portInUseWorld ev = None /\
      fst (main portInUseWorld) = before ++ [ev])).
Proof.
  split; [reflexivity|].
  apply (ending_after_flags portInUseWorld defaults). reflexivity.
Defined.

End CoverageRuns.
